(** * pptree: the slide-style pipeline of [app2.py]

    A shallow embedding of the classes [PPTStyleAnalyzer],
    [NaturalLanguageProcessor], [SVGGenerator] and [PPTGenerationPipeline],
    and the properties of the specification that concern them.

    Conventions of the embedding:
    - a Python object that comes out of [json.loads] (or is built from such
      objects) is a [pyval]; Python's [None] is [PNone];
    - a Python [str] is a [string], one [ascii] standing for one character;
    - a [dict] with string keys is a [gmap string pyval]; where the code
      iterates a dict, the order of its keys is given by the runtime;
    - an exception is an [outcome] of the form [Raise e];
    - the calls to Streamlit, to PyMuPDF and to [requests.post] are recorded
      as a chronological [list event]; the answers of the remote API are
      given by an oracle, indexed by the number of requests made before. *)

From Stdlib Require Import ZArith String Ascii List Floats.SpecFloat Lia.
From stdpp Require Import gmap strings list fin_maps.

Set Warnings "-register-all".

(** ** Python values *)

Inductive pyval : Type :=
  | PNone
  | PBool (b : bool)
  | PInt (z : Z)
  | PFloat (f : spec_float)
  | PStr (s : string)
  | PList (l : list pyval)
  | PDict (d : gmap string pyval).

(** Python's truth value testing ([if v:], [not v], [any(...)]). *)
Definition truthy (v : pyval) : bool :=
  match v with
  | PNone => false
  | PBool b => b
  | PInt z => negb (Z.eqb z 0)
  | PFloat f => match f with S754_zero _ => false | _ => true end
  | PStr s => match s with EmptyString => false | String _ _ => true end
  | PList l => match l with [] => false | _ :: _ => true end
  | PDict d => negb (bool_decide (d = ∅))
  end.

(** ** Exceptions *)

Inductive exn : Type :=
  | AttributeError
  | KeyError
  | IndexError
  | TypeError
  | JSONDecodeError
  | OtherError.

Inductive outcome (A : Type) : Type :=
  | Ret (a : A)
  | Raise (e : exn).
Arguments Ret {A} a.
Arguments Raise {A} e.

#[global] Instance outcome_ret : MRet outcome := λ A a, Ret a.
#[global] Instance outcome_bind : MBind outcome := λ A B f m,
  match m with
  | Ret a => f a
  | Raise e => Raise e
  end.

(** ** Attribute and item access on Python values *)

(** [o.get(key, default)]: only a dict has the method. *)
Definition py_get (o : pyval) (key : string) (default : pyval) : outcome pyval :=
  match o with
  | PDict d => Ret (from_option id default (d !! key))
  | _ => Raise AttributeError
  end.

(** [o[key]] for a string key. *)
Definition py_getitem (o : pyval) (key : string) : outcome pyval :=
  match o with
  | PDict d => match d !! key with Some v => Ret v | None => Raise KeyError end
  | _ => Raise TypeError
  end.

(** [o[0]]. *)
Definition py_getitem0 (o : pyval) : outcome pyval :=
  match o with
  | PList (v :: _) => Ret v
  | PList [] => Raise IndexError
  | PStr (String c _) => Ret (PStr (String c EmptyString))
  | PStr EmptyString => Raise IndexError
  | PDict _ => Raise KeyError
  | _ => Raise TypeError
  end.

(** [o.items()]: only a dict has the method. *)
Definition py_items (o : pyval) : outcome (gmap string pyval) :=
  match o with
  | PDict d => Ret d
  | _ => Raise AttributeError
  end.

(** ** [PPTStyleAnalyzer.merge_styles] (lines 166-201) *)

Module MergeStyles.

(** The inner loop of lines 185-187 and 192-194:
    [for key, value in items: if key not in merged and value: merged[key] = value]. *)
Definition merge_items (merged items : gmap string pyval) : gmap string pyval :=
  map_fold (λ key value acc,
              match acc !! key with
              | None => if truthy value then <[key := value]> acc else acc
              | Some _ => acc
              end) merged items.

(** The loop [for style in styles_list: if style.get(category): ...]. *)
Fixpoint merge_category (category : string) (styles_list : list pyval)
    (merged : gmap string pyval) : outcome (gmap string pyval) :=
  match styles_list with
  | [] => Ret merged
  | style :: rest =>
      v ← py_get style category PNone;
      if truthy v then
        sub ← py_getitem style category;
        items ← py_items sub;
        merge_category category rest (merge_items merged items)
      else merge_category category rest merged
  end.

(** [any(style.get("has_diagrams", False) for style in styles_list)]. *)
Fixpoint any_has_diagrams (styles_list : list pyval) : outcome bool :=
  match styles_list with
  | [] => Ret false
  | style :: rest =>
      v ← py_get style "has_diagrams" (PBool false);
      if truthy v then Ret true else any_has_diagrams rest
  end.

(** The loop of lines 196-199, [current] being
    [merged_style["brand_description"]]; the [break] ends it. *)
Fixpoint merge_brand (styles_list : list pyval) (current : pyval) : outcome pyval :=
  match styles_list with
  | [] => Ret current
  | style :: rest =>
      v ← py_get style "brand_description" PNone;
      if truthy v && negb (truthy current)
      then py_getitem style "brand_description"
      else merge_brand rest current
  end.

(** The dict literal of lines 174-181 with its final contents. *)
Definition merged_style (color_palette typography layout visual_style : gmap string pyval)
    (brand_description : pyval) (has_diagrams : bool) : pyval :=
  PDict (<["color_palette" := PDict color_palette]>
        (<["typography" := PDict typography]>
        (<["layout" := PDict layout]>
        (<["visual_style" := PDict visual_style]>
        (<["brand_description" := brand_description]>
        (<["has_diagrams" := PBool has_diagrams]> ∅)))))).

Definition merge_styles (styles_list : list pyval) : outcome pyval :=
  match styles_list with
  | [] => Ret PNone
  | [style] => Ret style
  | _ =>
      has_diagrams ← any_has_diagrams styles_list;
      color_palette ← merge_category "color_palette" styles_list ∅;
      typography ← merge_category "typography" styles_list ∅;
      layout ← merge_category "layout" styles_list ∅;
      visual_style ← merge_category "visual_style" styles_list ∅;
      brand_description ← merge_brand styles_list (PStr "");
      Ret (merged_style color_palette typography layout visual_style
             brand_description has_diagrams)
  end.

(** *** What the specification says of the merge *)

Definition categories : list string :=
  ["color_palette"; "typography"; "layout"; "visual_style"].

(** The truthy value, if any, that the category dictionary of [style] holds
    for [key]. *)
Definition category_value (category key : string) (style : pyval) : option pyval :=
  match style with
  | PDict d =>
      match d !! category with
      | Some (PDict c) =>
          match c !! key with
          | Some v => if truthy v then Some v else None
          | None => None
          end
      | _ => None
      end
  | _ => None
  end.

(** First write wins: the value of the first style, in list order, whose
    category dictionary contains a truthy value for the key. *)
Fixpoint first_write (category key : string) (styles_list : list pyval) : option pyval :=
  match styles_list with
  | [] => None
  | style :: rest =>
      match category_value category key style with
      | Some v => Some v
      | None => first_write category key rest
      end
  end.

(** The [brand_description] of a style, when it is non-empty. *)
Definition brand_of (style : pyval) : option pyval :=
  match style with
  | PDict d =>
      match d !! "brand_description" with
      | Some v => if truthy v then Some v else None
      | None => None
      end
  | _ => None
  end.

(** The first non-empty [brand_description] in list order, the empty string
    when there is none. *)
Fixpoint first_brand (styles_list : list pyval) : pyval :=
  match styles_list with
  | [] => PStr ""
  | style :: rest =>
      match brand_of style with
      | Some v => v
      | None => first_brand rest
      end
  end.

(** The [has_diagrams] field of a style, a missing one counting as false. *)
Definition has_diagrams_of (style : pyval) : bool :=
  match style with
  | PDict d => from_option truthy false (d !! "has_diagrams")
  | _ => false
  end.

Definition diagrams_disjunction (styles_list : list pyval) : bool :=
  existsb has_diagrams_of styles_list.

(** A page style as the prompt of [analyze_page_image] asks for it: a dict
    whose category fields, where present, are dicts (or falsy, which the
    merge skips). *)
Definition category_ok (v : pyval) : bool :=
  match v with
  | PDict _ => true
  | _ => negb (truthy v)
  end.

Definition style_ok (style : pyval) : bool :=
  match style with
  | PDict d => forallb (λ c, from_option category_ok true (d !! c)) categories
  | _ => false
  end.

(** The record has the four nested fields and [brand_description]. *)
Definition has_style_fields (r : outcome pyval) : Prop :=
  ∃ (merged color_palette typography layout visual_style : gmap string pyval)
    (brand_description : pyval),
    r = Ret (PDict merged) ∧
    merged !! "color_palette" = Some (PDict color_palette) ∧
    merged !! "typography" = Some (PDict typography) ∧
    merged !! "layout" = Some (PDict layout) ∧
    merged !! "visual_style" = Some (PDict visual_style) ∧
    merged !! "brand_description" = Some brand_description.

End MergeStyles.

(** ** Methods of [str] *)

Module PyStr.

(** [s.find(sub)]: the lowest index at which [sub] occurs, [-1] if none. *)
Fixpoint find_from (sub s : string) (i : Z) : Z :=
  if String.prefix sub s then i
  else match s with
       | EmptyString => (-1)%Z
       | String _ s' => find_from sub s' (i + 1)%Z
       end.

Definition find (s sub : string) : Z := find_from sub s 0%Z.

(** An index of a slice: a negative one counts from the end, and the result
    is clamped to the string. *)
Definition slice_index (len i : Z) : Z :=
  let i := if (i <? 0)%Z then (i + len)%Z else i in
  Z.max 0 (Z.min len i).

(** [s[start:stop]]. *)
Definition slice (s : string) (start stop : Z) : string :=
  let len := Z.of_nat (String.length s) in
  let lo := slice_index len start in
  let hi := slice_index len stop in
  substring (Z.to_nat lo) (Z.to_nat (hi - lo)) s.

(** [s.replace(old, new)] for a non-empty [old]: the occurrences are replaced
    from left to right, without overlap. [skip] counts the characters of a
    replaced occurrence that are still to be passed over. *)
Fixpoint replace_from (old new : string) (skip : nat) (s : string) : string :=
  match s with
  | EmptyString => EmptyString
  | String c s' =>
      match skip with
      | S k => replace_from old new k s'
      | O =>
          if String.prefix old s
          then new +:+ replace_from old new (String.length old - 1) s'
          else String c (replace_from old new 0 s')
      end
  end.

Definition replace (s old new : string) : string := replace_from old new 0 s.

(** The characters [str.strip()] removes, among the first 256 code points. *)
Definition is_space (c : ascii) : bool :=
  let n := nat_of_ascii c in
  (Nat.leb 9 n && Nat.leb n 13) || (Nat.leb 28 n && Nat.leb n 32)
  || Nat.eqb n 133 || Nat.eqb n 160.

Fixpoint lstrip (s : string) : string :=
  match s with
  | EmptyString => EmptyString
  | String c s' => if is_space c then lstrip s' else s
  end.

Fixpoint rstrip (s : string) : string :=
  match s with
  | EmptyString => EmptyString
  | String c s' =>
      match rstrip s' with
      | EmptyString => if is_space c then EmptyString else String c EmptyString
      | r => String c r
      end
  end.

Definition strip (s : string) : string := rstrip (lstrip s).

(** [sub] occurs in [s] at index [i]. *)
Definition occurs_at (sub s : string) (i : nat) : Prop :=
  ∃ before after, s = before +:+ sub +:+ after ∧ String.length before = i.

(** The first occurrence of [sub] in [s] is at index [i]. *)
Definition first_occurrence (sub s : string) (i : nat) : Prop :=
  occurs_at sub s i ∧ ∀ k, (k < i)%nat → ¬ occurs_at sub s k.

(** [r] is the part of [s] from index [start] up to, not including, index
    [stop]. *)
Definition span (s : string) (start stop : nat) (r : string) : Prop :=
  ∃ before after,
    s = before +:+ r +:+ after ∧
    String.length before = start ∧
    (String.length before + String.length r)%nat = stop.

End PyStr.

(** ** The world around the program *)

(** The answer to a POST: [response.status_code], [response.text], and what
    [response.json()] gives. *)
Record response : Type := {
  status_code : Z;
  text : string;
  json : outcome pyval;
}.

(** The POST requests of the program, by the payload that is built: the
    page prompt with a PNG image (lines 83-141), the slide prompt with a JPEG
    image (lines 216-267), the content prompt around the user's input (lines
    297-320) and the SVG prompt (lines 352-361). *)
Inductive request : Type :=
  | PageRequest (page_num : nat) (base64_image : string)
  | ImageRequest (base64_image : string)
  | ContentRequest (user_input : string)
  | SvgRequest (prompt : string).

(** What the program does not define: the remote API, [json.loads],
    [base64.b64encode(...).decode()] and the formatting of a value inside an
    f-string. [requests_post k r] is the result of the POST of [r] issued
    after [k] earlier ones; [json_loads] gives [None] for a
    [json.JSONDecodeError]. A dict is a finite map here and does not record
    the order in which its keys were inserted: [dict_keys d] is the list of
    the keys of [d] in the order in which Python iterates them. *)
Class Runtime : Type := {
  requests_post : nat → request → outcome response;
  json_loads : string → option pyval;
  b64encode : string → string;
  py_str : pyval → string;
  dict_keys : gmap string pyval → list string;
}.

(** The three [with st.status(...)] blocks of [generate_ppt_slide]. *)
Inductive stage : Type :=
  | StyleStage
  | ContentStage
  | SvgStage.

Inductive status_state : Type :=
  | StateError
  | StateComplete.

(** The Streamlit calls that print, [st.info], [st.write], [st.success],
    [st.warning] and [st.error]. *)
Inductive level : Type :=
  | Info
  | Write
  | Success
  | Warning
  | Error.

(** The messages, one constructor per call site, with the values that are
    formatted into the text. *)
Inductive message : Type :=
  | PdfPages (page_count : nat)
  | PageAnalysing (page_num : nat)
  | PageImageSize (page_num size : nat)
  | PageDone (page_num : nat)
  | PageFailed (page_num : nat)
  | NoStyles
  | Unified (pages : nat)
  | PdfError (e : exn)
  | PdfTraceback
  | PageJsonError (page_num : nat) (content : string)
  | PageHttpFailure (page_num : nat) (status : Z) (body : string)
  | PageException (page_num : nat) (e : exn)
  | StyleHttpFailure (status : Z)
  | StyleException (e : exn)
  | ContentHttpFailure (status : Z)
  | ContentException (e : exn)
  | SvgNotFound
  | SvgHttpFailure (status : Z)
  | SvgException (e : exn).

Inductive event : Type :=
  | Post (r : request)
  | Pixmap (page_index : nat)
  | Ui (l : level) (m : message)
  | StatusOpen (s : stage)
  | StatusUpdate (s : stage) (state : status_state).

Definition is_post (e : event) : bool :=
  match e with
  | Post _ => true
  | _ => false
  end.

Definition count_posts (t : list event) : nat := length (filter is_post t).

(** ** Computations with effects *)

(** A computation is run after [k] POST requests have been issued; it
    returns a value or raises, and gives the events it adds, in order. *)
Definition M (A : Type) : Type := nat → outcome A * list event.

#[global] Instance M_ret : MRet M := λ A a _, (Ret a, []).
#[global] Instance M_bind : MBind M := λ A B f m k,
  match m k with
  | (Ret a, evs) =>
      let '(r, evs') := f a (k + count_posts evs)%nat in (r, evs ++ evs')
  | (Raise e, evs) => (Raise e, evs)
  end.

Definition lift {A : Type} (o : outcome A) : M A := λ _, (o, []).

Definition emit (e : event) : M unit := λ _, (Ret (), [e]).

Definition ui (l : level) (m : message) : M unit := emit (Ui l m).

(** [try: body except Exception as e: handler]. *)
Definition try_except {A : Type} (body : M A) (handler : exn → M A) : M A := λ k,
  match body k with
  | (Ret a, evs) => (Ret a, evs)
  | (Raise e, evs) =>
      let '(r, evs') := handler e (k + count_posts evs)%nat in (r, evs ++ evs')
  end.

(** [requests.post(self.openai_url, headers=headers, json=payload)]. *)
Definition post `{Runtime} (r : request) : M response := λ k,
  (requests_post k r, [Post r]).

(** [for b in l: acc = f(acc, b)]. *)
Fixpoint for_each {A B : Type} (f : A → B → M A) (l : list B) (acc : A) : M A :=
  match l with
  | [] => mret acc
  | b :: rest => acc' ← f acc b; for_each f rest acc'
  end.

(** A method of [str] is called on the value. *)
Definition as_str (v : pyval) : outcome string :=
  match v with
  | PStr s => Ret s
  | _ => Raise AttributeError
  end.

(** [result['choices'][0]['message']['content']]. *)
Definition message_content (result : pyval) : outcome pyval :=
  choices ← py_getitem result "choices";
  choice ← py_getitem0 choices;
  msg ← py_getitem choice "message";
  py_getitem msg "content".

(** [content.replace('```json', '').replace('```', '').strip()]. *)
Definition strip_fences (content : pyval) : outcome string :=
  s ← as_str content;
  Ret (PyStr.strip (PyStr.replace (PyStr.replace s "```json" "") "```" "")).

(** ** [PPTStyleAnalyzer] *)

Section Analyzer.
Context `{Runtime}.

(** [analyze_page_image] (lines 76-164). *)
Definition analyze_page_image (base64_image : string) (page_num : nat) : M pyval :=
  try_except
    (response ← post (PageRequest page_num base64_image);
     if Z.eqb (status_code response) 200 then
       result ← lift (json response);
       content ← lift (message_content result);
       content ← lift (strip_fences content);
       match json_loads content with
       | Some style_data => mret style_data
       | None =>
           ui Warning (PageJsonError page_num (PyStr.slice content 0 200));;
           mret PNone
       end
     else
       ui Warning (PageHttpFailure page_num (status_code response) (text response));;
       mret PNone)
    (λ e, ui Warning (PageException page_num e);; mret PNone).

(** The argument of [analyze_ppt_style_single_image]: [bytes], or a file-like
    object, given by what its [read()] returns or raises. *)
Inductive image_source : Type :=
  | RawBytes (data : string)
  | FileLike (read : outcome string).

(** Lines 205-209: the bytes of the image. *)
Definition read_image (image_data : image_source) : outcome string :=
  match image_data with
  | RawBytes data => Ret data
  | FileLike read => read
  end.

(** [analyze_ppt_style_single_image] (lines 203-283). *)
Definition analyze_ppt_style_single_image (image_data : image_source) : M pyval :=
  raw ← lift (read_image image_data);
  let base64_image := b64encode raw in
  try_except
    (response ← post (ImageRequest base64_image);
     if Z.eqb (status_code response) 200 then
       result ← lift (json response);
       content ← lift (message_content result);
       content ← lift (strip_fences content);
       match json_loads content with
       | Some style_data => mret style_data
       | None => lift (Raise JSONDecodeError)
       end
     else
       ui Error (StyleHttpFailure (status_code response));;
       mret PNone)
    (λ e, ui Error (StyleException e);; mret PNone).

(** A page of the opened document: the PNG bytes that
    [page.get_pixmap(matrix=mat).tobytes("png")] gives, or the exception it
    raises. *)
Definition page : Type := outcome string.

(** The body of the loop of lines 38-58, for the page of index [page_num];
    it returns the new [all_styles]. *)
Definition analyze_page (doc : list page) (all_styles : list pyval) (page_num : nat)
    : M (list pyval) :=
  ui Write (PageAnalysing (page_num + 1));;
  pg ← lift (from_option Ret (Raise IndexError) (doc !! page_num));
  emit (Pixmap page_num);;
  img_data ← lift pg;
  ui Write (PageImageSize (page_num + 1) (String.length img_data));;
  let base64_image := b64encode img_data in
  page_style ← analyze_page_image base64_image (page_num + 1);
  if truthy page_style then
    ui Success (PageDone (page_num + 1));;
    mret (all_styles ++ [page_style])
  else
    ui Warning (PageFailed (page_num + 1));;
    mret all_styles.

(** [analyze_pdf_with_gpt4v] (lines 26-74). [pdf_file] is what
    [fitz.open(stream=pdf_file.read(), filetype="pdf")] gives: the pages of
    the document, or an exception. *)
Definition analyze_pdf_with_gpt4v (pdf_file : outcome (list page)) : M pyval :=
  try_except
    (doc ← lift pdf_file;
     ui Info (PdfPages (length doc));;
     let max_pages := Nat.min 10 (length doc) in
     all_styles ← for_each (analyze_page doc) (seq 0 max_pages) [];
     if bool_decide (all_styles = []) then
       ui Error NoStyles;;
       mret PNone
     else
       unified_style ← lift (MergeStyles.merge_styles all_styles);
       ui Success (Unified (length all_styles));;
       mret unified_style)
    (λ e, ui Error (PdfError e);; ui Error PdfTraceback;; mret PNone).

End Analyzer.

(** ** [NaturalLanguageProcessor] *)

Section Processor.
Context `{Runtime}.

(** [process_user_request] (lines 291-336). *)
Definition process_user_request (user_input : string) : M pyval :=
  try_except
    (response ← post (ContentRequest user_input);
     if Z.eqb (status_code response) 200 then
       result ← lift (json response);
       content ← lift (message_content result);
       content ← lift (strip_fences content);
       match json_loads content with
       | Some content_data => mret content_data
       | None => lift (Raise JSONDecodeError)
       end
     else
       ui Error (ContentHttpFailure (status_code response));;
       mret PNone)
    (λ e, ui Error (ContentException e);; mret PNone).

End Processor.

(** ** [SVGGenerator] *)

Definition nl : string := String "010"%char EmptyString.
Definition dq : string := String "034"%char EmptyString.

(** The f-string of lines 412-446, with the formatted values of its
    replacement fields. *)
Definition svg_prompt_text (content_type main_topic elements primary_color
    secondary_color accent_color background_color text_color title_font
    body_font alignment title_position design_approach : string) : string :=
  String.concat nl [
    "";
    "Generate a clean, professional SVG diagram for a presentation slide matching this exact style:";
    "";
    "CONTENT REQUIREMENTS:";
    "- Type: " +:+ content_type;
    "- Topic: " +:+ main_topic;
    "- Elements needed: " +:+ elements;
    "";
    "STYLE SPECIFICATIONS:";
    "- Colors: Primary " +:+ primary_color +:+ ", Secondary " +:+ secondary_color +:+ ", Accent " +:+ accent_color;
    "- Background: " +:+ background_color;
    "- Text color: " +:+ text_color;
    "- Fonts: Title " +:+ dq +:+ title_font +:+ dq +:+ ", Body " +:+ dq +:+ body_font +:+ dq;
    "- Layout: " +:+ alignment +:+ " aligned, title " +:+ title_position;
    "- Design approach: " +:+ design_approach;
    "";
    "SVG REQUIREMENTS:";
    "- Create a complete SVG (width=" +:+ dq +:+ "1024" +:+ dq +:+ " height=" +:+ dq +:+ "768" +:+ dq +:+ ")";
    "- Clean, simple shapes - circles, rectangles, lines only";
    "- Professional presentation quality";
    "- Readable text with appropriate font sizes";
    "- Proper spacing and margins";
    "- Use exact color codes specified above";
    "- Include title and clear labels";
    "- Simple, educational diagram style (NOT artistic or 3D)";
    "";
    "IMPORTANT: Respond with ONLY the complete SVG code, starting with <svg> and ending with </svg>. Do not include any explanation or markdown formatting.";
    "";
    "Example structure for neural network:";
    "- Use circles for nodes";
    "- Use straight lines for connections  ";
    "- Label each layer clearly";
    "- Keep it flat and 2D";
    "- Use grid-like positioning";
    ""
  ].

Definition fallback_prompt : string :=
  "Create a simple SVG diagram for a presentation slide".

(** An element of the iterable given to [str.join]. *)
Definition as_element (v : pyval) : outcome string :=
  match v with
  | PStr s => Ret s
  | _ => Raise TypeError
  end.

Fixpoint as_elements (l : list pyval) : outcome (list string) :=
  match l with
  | [] => Ret []
  | v :: rest => s ← as_element v; ss ← as_elements rest; Ret (s :: ss)
  end.

(** [', '.join(v)]: [v] is iterated, a list over its elements, a string over
    its characters, a dict over its keys in the order of their insertion,
    which [dict_keys] gives. *)
Definition join_elements `{Runtime} (v : pyval) : outcome string :=
  match v with
  | PList l => ss ← as_elements l; Ret (String.concat ", " ss)
  | PStr s => Ret (String.concat ", " ((λ c, String c EmptyString) <$> list_ascii_of_string s))
  | PDict d => Ret (String.concat ", " (dict_keys d))
  | _ => Raise TypeError
  end.

Section Generator.
Context `{Runtime}.

(** [create_svg_prompt] (lines 386-448). *)
Definition create_svg_prompt (style_data content_data : pyval) : outcome string :=
  if negb (truthy style_data) || negb (truthy content_data) then Ret fallback_prompt
  else
    colors ← py_get style_data "color_palette" (PDict ∅);
    primary_color ← py_get colors "primary" (PStr "#1f4e79");
    secondary_color ← py_get colors "secondary" (PStr "#5b9bd5");
    accent_color ← py_get colors "accent" (PStr "#f79646");
    background_color ← py_get colors "background" (PStr "#ffffff");
    text_color ← py_get colors "text" (PStr "#2f2f2f");
    typography ← py_get style_data "typography" (PDict ∅);
    title_font ← py_get typography "title_font" (PStr "Arial Bold");
    body_font ← py_get typography "body_font" (PStr "Arial Regular");
    layout ← py_get style_data "layout" (PDict ∅);
    alignment ← py_get layout "alignment" (PStr "center");
    title_position ← py_get layout "title_position" (PStr "top-center");
    visual_style ← py_get style_data "visual_style" (PDict ∅);
    design_approach ← py_get visual_style "design_approach" (PStr "professional");
    content_type ← py_get content_data "content_type" (PStr "diagram");
    main_topic ← py_get content_data "main_topic" (PStr "Technical diagram");
    specific_elements ← py_get content_data "specific_elements" (PList []);
    elements ← join_elements specific_elements;
    Ret (svg_prompt_text (py_str content_type) (py_str main_topic) elements
           (py_str primary_color) (py_str secondary_color) (py_str accent_color)
           (py_str background_color) (py_str text_color) (py_str title_font)
           (py_str body_font) (py_str alignment) (py_str title_position)
           (py_str design_approach)).

(** [generate_svg] (lines 344-384); the pair is the tuple it returns. *)
Definition generate_svg (style_data content_data : pyval) : M (pyval * pyval) :=
  prompt ← lift (create_svg_prompt style_data content_data);
  try_except
    (response ← post (SvgRequest prompt);
     if Z.eqb (status_code response) 200 then
       result ← lift (json response);
       svg_content ← lift (message_content result);
       svg_content ← lift (as_str svg_content);
       let svg_start := PyStr.find svg_content "<svg" in
       let svg_end := (PyStr.find svg_content "</svg>" + 6)%Z in
       if negb (Z.eqb svg_start (-1)) && negb (Z.eqb svg_end (-1)) then
         let clean_svg := PyStr.slice svg_content svg_start svg_end in
         mret (PStr clean_svg, PStr prompt)
       else
         ui Error SvgNotFound;;
         mret (PNone, PNone)
     else
       ui Error (SvgHttpFailure (status_code response));;
       mret (PNone, PNone))
    (λ e, ui Error (SvgException e);; mret (PNone, PNone)).

End Generator.

(** ** [PPTGenerationPipeline] *)

Section Pipeline.
Context `{Runtime}.

(** The dict of lines 488-493. *)
Definition slide (svg_content style_data content_data final_prompt : pyval) : pyval :=
  PDict (<["svg_content" := svg_content]>
        (<["extracted_style" := style_data]>
        (<["processed_content" := content_data]>
        (<["final_prompt" := final_prompt]> ∅)))).

(** [generate_ppt_slide] (lines 457-493). *)
Definition generate_ppt_slide (uploaded_file : outcome (list page)) (user_request : string)
    : M pyval :=
  emit (StatusOpen StyleStage);;
  style_data ← analyze_pdf_with_gpt4v uploaded_file;
  if negb (truthy style_data) then
    emit (StatusUpdate StyleStage StateError);;
    mret PNone
  else
    emit (StatusUpdate StyleStage StateComplete);;
    emit (StatusOpen ContentStage);;
    content_data ← process_user_request user_request;
    if negb (truthy content_data) then
      emit (StatusUpdate ContentStage StateError);;
      mret PNone
    else
      emit (StatusUpdate ContentStage StateComplete);;
      emit (StatusOpen SvgStage);;
      '(svg_content, final_prompt) ← generate_svg style_data content_data;
      if negb (truthy svg_content) then
        emit (StatusUpdate SvgStage StateError);;
        mret PNone
      else
        emit (StatusUpdate SvgStage StateComplete);;
        mret (slide svg_content style_data content_data final_prompt).

End Pipeline.

(** ** Notions used in the statements *)

(** The content of the message of a reply, stripped of the code fences. *)
Definition parsed_content (resp : response) : outcome string :=
  result ← json resp;
  content ← message_content result;
  strip_fences content.

(** The success of an operation that parses the reply: the reply to [req]
    has status 200 and [json.loads] turns its content into [r]. *)
Definition api_success `{Runtime} (k : nat) (req : request) (r : pyval) : Prop :=
  ∃ resp content,
    requests_post k req = Ret resp ∧
    status_code resp = 200%Z ∧
    parsed_content resp = Ret content ∧
    json_loads content = Some r.

(** The reply to the SVG request has status 200 and its content is the
    string [svg_content]. *)
Definition svg_reply `{Runtime} (k : nat) (prompt svg_content : string) : Prop :=
  ∃ resp result,
    requests_post k (SvgRequest prompt) = Ret resp ∧
    status_code resp = 200%Z ∧
    json resp = Ret result ∧
    message_content result = Ret (PStr svg_content).

Definition is_pixmap (e : event) : bool :=
  match e with
  | Pixmap _ => true
  | _ => false
  end.

Definition count_pixmaps (evs : list event) : nat := length (filter is_pixmap evs).

(** An event of the analysis of the first [n] pages: a rendering of one of
    them, the request for one of them, or a message. *)
Definition page_event (n : nat) (e : event) : Prop :=
  match e with
  | Pixmap i => (i < n)%nat
  | Post (PageRequest p _) => (1 ≤ p ≤ n)%nat
  | Post _ => False
  | Ui _ _ => True
  | StatusOpen _ | StatusUpdate _ _ => False
  end.

Definition request_stage (r : request) : stage :=
  match r with
  | PageRequest _ _ | ImageRequest _ => StyleStage
  | ContentRequest _ => ContentStage
  | SvgRequest _ => SvgStage
  end.

(** An event of the work of one stage: its POST requests, the renderings of
    pages for the style stage, and messages; not the opening or the update of
    a status block. *)
Definition stage_event (s : stage) (e : event) : Prop :=
  match e with
  | Post r => request_stage r = s
  | Pixmap _ => s = StyleStage
  | Ui _ _ => True
  | StatusOpen _ | StatusUpdate _ _ => False
  end.

Section Runs.
Context `{Runtime}.

(** The five ways a run of [generate_ppt_slide] ends, with the events of
    each. The last one is the success: the result is a dict of exactly four
    entries, the SVG and the prompt that [generate_svg] returned and the
    results of the first two stages. *)
Inductive pipeline_run (uploaded_file : outcome (list page)) (user_request : string)
    (k : nat) : outcome pyval * list event → Prop :=
  | StyleFailed style_data evs1 :
      analyze_pdf_with_gpt4v uploaded_file k = (Ret style_data, evs1) →
      Forall (stage_event StyleStage) evs1 →
      truthy style_data = false →
      pipeline_run uploaded_file user_request k
        (Ret PNone,
         StatusOpen StyleStage :: evs1 ++ [StatusUpdate StyleStage StateError])
  | ContentFailed style_data evs1 content_data evs2 :
      analyze_pdf_with_gpt4v uploaded_file k = (Ret style_data, evs1) →
      Forall (stage_event StyleStage) evs1 →
      truthy style_data = true →
      process_user_request user_request (k + count_posts evs1) = (Ret content_data, evs2) →
      Forall (stage_event ContentStage) evs2 →
      truthy content_data = false →
      pipeline_run uploaded_file user_request k
        (Ret PNone,
         StatusOpen StyleStage :: evs1
           ++ StatusUpdate StyleStage StateComplete :: StatusOpen ContentStage :: evs2
           ++ [StatusUpdate ContentStage StateError])
  | SvgRaised style_data evs1 content_data evs2 e evs3 :
      analyze_pdf_with_gpt4v uploaded_file k = (Ret style_data, evs1) →
      Forall (stage_event StyleStage) evs1 →
      truthy style_data = true →
      process_user_request user_request (k + count_posts evs1) = (Ret content_data, evs2) →
      Forall (stage_event ContentStage) evs2 →
      truthy content_data = true →
      generate_svg style_data content_data (k + count_posts evs1 + count_posts evs2)
        = (Raise e, evs3) →
      Forall (stage_event SvgStage) evs3 →
      pipeline_run uploaded_file user_request k
        (Raise e,
         StatusOpen StyleStage :: evs1
           ++ StatusUpdate StyleStage StateComplete :: StatusOpen ContentStage :: evs2
           ++ StatusUpdate ContentStage StateComplete :: StatusOpen SvgStage :: evs3)
  | SvgFailed style_data evs1 content_data evs2 svg_content final_prompt evs3 :
      analyze_pdf_with_gpt4v uploaded_file k = (Ret style_data, evs1) →
      Forall (stage_event StyleStage) evs1 →
      truthy style_data = true →
      process_user_request user_request (k + count_posts evs1) = (Ret content_data, evs2) →
      Forall (stage_event ContentStage) evs2 →
      truthy content_data = true →
      generate_svg style_data content_data (k + count_posts evs1 + count_posts evs2)
        = (Ret (svg_content, final_prompt), evs3) →
      Forall (stage_event SvgStage) evs3 →
      truthy svg_content = false →
      pipeline_run uploaded_file user_request k
        (Ret PNone,
         StatusOpen StyleStage :: evs1
           ++ StatusUpdate StyleStage StateComplete :: StatusOpen ContentStage :: evs2
           ++ StatusUpdate ContentStage StateComplete :: StatusOpen SvgStage :: evs3
           ++ [StatusUpdate SvgStage StateError])
  | Succeeded style_data evs1 content_data evs2 svg_content final_prompt evs3
        (record : gmap string pyval) :
      analyze_pdf_with_gpt4v uploaded_file k = (Ret style_data, evs1) →
      Forall (stage_event StyleStage) evs1 →
      truthy style_data = true →
      process_user_request user_request (k + count_posts evs1) = (Ret content_data, evs2) →
      Forall (stage_event ContentStage) evs2 →
      truthy content_data = true →
      generate_svg style_data content_data (k + count_posts evs1 + count_posts evs2)
        = (Ret (svg_content, final_prompt), evs3) →
      Forall (stage_event SvgStage) evs3 →
      truthy svg_content = true →
      record !! "svg_content" = Some svg_content →
      record !! "extracted_style" = Some style_data →
      record !! "processed_content" = Some content_data →
      record !! "final_prompt" = Some final_prompt →
      size record = 4%nat →
      pipeline_run uploaded_file user_request k
        (Ret (PDict record),
         StatusOpen StyleStage :: evs1
           ++ StatusUpdate StyleStage StateComplete :: StatusOpen ContentStage :: evs2
           ++ StatusUpdate ContentStage StateComplete :: StatusOpen SvgStage :: evs3
           ++ [StatusUpdate SvgStage StateComplete]).

End Runs.

(** The loop of lines 36-58 on its own. *)
Definition analyze_pages `{Runtime} (doc : list page) : M (list pyval) :=
  for_each (analyze_page doc) (seq 0 (Nat.min 10 (length doc))) [].

(** The two [st.error] calls of lines 71-73. *)
Definition failure_report (e : exn) : list event :=
  [Ui Error (PdfError e); Ui Error PdfTraceback].

(** The part of [svg_content] from the first occurrence of the opening
    marker to the end of the first occurrence of the closing marker. *)
Definition extracted_span (svg_content clean_svg : string) : Prop :=
  ∃ i j,
    PyStr.first_occurrence "<svg" svg_content i ∧
    PyStr.first_occurrence "</svg>" svg_content j ∧
    PyStr.span svg_content i (j + 6) clean_svg.

(** The inputs on which [create_svg_prompt] is meant to work: two dicts, the
    four style categories dicts where present, and [specific_elements] a list
    of strings where present. *)
Definition category_dict_ok (style : gmap string pyval) (name : string) : bool :=
  match style !! name with
  | None | Some (PDict _) => true
  | Some _ => false
  end.

Definition is_str (v : pyval) : bool :=
  match v with
  | PStr _ => true
  | _ => false
  end.

Definition elements_ok (content : gmap string pyval) : bool :=
  match content !! "specific_elements" with
  | None => true
  | Some (PList l) => forallb is_str l
  | Some _ => false
  end.

Definition prompt_inputs_ok (style_data content_data : pyval) : bool :=
  match style_data, content_data with
  | PDict style, PDict content =>
      forallb (category_dict_ok style) MergeStyles.categories && elements_ok content
  | _, _ => false
  end.

(** The dict under a key of [d], empty when there is none. *)
Definition nested (d : pyval) (name : string) : gmap string pyval :=
  match d with
  | PDict m => match m !! name with Some (PDict c) => c | _ => ∅ end
  | _ => ∅
  end.

Definition entries (d : pyval) : gmap string pyval :=
  match d with
  | PDict m => m
  | _ => ∅
  end.

Definition str_of (v : pyval) : option string :=
  match v with
  | PStr s => Some s
  | _ => None
  end.

Section Defaults.
Context `{Runtime}.

(** The text of a replacement field: the formatted value of the key, the
    fixed default when the key is missing. *)
Definition slot (d : gmap string pyval) (key default : string) : string :=
  match d !! key with
  | Some v => py_str v
  | None => default
  end.

(** The strings of [specific_elements], joined; nothing when the key is
    missing. *)
Definition elements_text (content : gmap string pyval) : string :=
  match content !! "specific_elements" with
  | Some (PList l) => String.concat ", " (omap str_of l)
  | _ => ""
  end.

(** The prompt in which every missing key is replaced by its default. *)
Definition prompt_with_defaults (style_data content_data : pyval) : string :=
  let colors := nested style_data "color_palette" in
  let typography := nested style_data "typography" in
  let layout := nested style_data "layout" in
  let visual_style := nested style_data "visual_style" in
  let content := entries content_data in
  svg_prompt_text
    (slot content "content_type" "diagram")
    (slot content "main_topic" "Technical diagram")
    (elements_text content)
    (slot colors "primary" "#1f4e79")
    (slot colors "secondary" "#5b9bd5")
    (slot colors "accent" "#f79646")
    (slot colors "background" "#ffffff")
    (slot colors "text" "#2f2f2f")
    (slot typography "title_font" "Arial Bold")
    (slot typography "body_font" "Arial Regular")
    (slot layout "alignment" "center")
    (slot layout "title_position" "top-center")
    (slot visual_style "design_approach" "professional").

End Defaults.

(** A reply whose message has the given content. *)
Definition reply (status : Z) (content : pyval) : response :=
  {| status_code := status;
     text := "";
     json := Ret (PDict {[ "choices" :=
              PList [PDict {[ "message" := PDict {[ "content" := content ]} ]}] ]}) |}.

(** A runtime in which every request gets the same reply. *)
Definition sample_runtime (status : Z) (content : string) : Runtime :=
  {| requests_post := λ _ _, Ret (reply status (PStr content));
     json_loads := λ _, None;
     b64encode := λ s, s;
     py_str := λ v, match v with PStr s => s | _ => "" end;
     dict_keys := λ d, (map_to_list d).*1 |}.

(** A style and a content as the two prompts ask for them, with most keys
    missing. *)
Definition sample_style : pyval :=
  PDict {[ "color_palette" := PDict {[ "primary" := PStr "#111111" ]} ]}.

Definition sample_content : pyval :=
  PDict {[ "main_topic" := PStr "Networks" ]}.

Definition sample_prompt : string :=
  svg_prompt_text "diagram" "Networks" "" "#111111" "#5b9bd5" "#f79646" "#ffffff"
    "#2f2f2f" "Arial Bold" "Arial Regular" "center" "top-center" "professional".

Definition sample_styles : list pyval :=
  [ PDict {[ "color_palette" := PDict {[ "primary" := PStr "#111111"; "accent" := PStr "" ]};
             "brand_description" := PStr "" ]};
    PDict {[ "color_palette" := PDict {[ "primary" := PStr "#222222"; "accent" := PStr "#333333" ]};
             "brand_description" := PStr "plain";
             "has_diagrams" := PBool true ]} ].

(** The styles that the analysis of the pages [pages] of [doc] collects,
    the first of the requests being made after [k] earlier ones: every page
    renders, and a page contributes the style parsed from the reply to its
    request when there is one and it is truthy, and nothing otherwise. *)
Fixpoint page_styles `{Runtime} (doc : list page) (pages : list nat) (k : nat)
    (all_styles : list pyval) : Prop :=
  match pages with
  | [] => all_styles = []
  | j :: rest =>
      ∃ img_data,
        doc !! j = Some (Ret img_data) ∧
        ((∃ style styles,
            api_success k (PageRequest (j + 1) (b64encode img_data)) style ∧
            truthy style = true ∧
            all_styles = style :: styles ∧
            page_styles doc rest (k + 1) styles)
         ∨ ((∀ style,
               api_success k (PageRequest (j + 1) (b64encode img_data)) style →
               truthy style = false) ∧
            page_styles doc rest (k + 1) all_styles))
  end.

(** What [analyze_pdf_with_gpt4v] returns for the styles it has collected:
    [None] when there is none or when the merge raises, the merge
    otherwise. *)
Definition merged_or_none (all_styles : list pyval) : pyval :=
  match all_styles with
  | [] => PNone
  | _ :: _ =>
      match MergeStyles.merge_styles all_styles with
      | Ret unified_style => unified_style
      | Raise _ => PNone
      end
  end.

(** The text of [sample_style] and of [sample_content] as JSON. *)
Definition sample_style_json : string :=
  "{" +:+ dq +:+ "color_palette" +:+ dq +:+ ": {" +:+ dq +:+ "primary" +:+ dq +:+ ": "
  +:+ dq +:+ "#111111" +:+ dq +:+ "}}".

Definition sample_content_json : string :=
  "{" +:+ dq +:+ "main_topic" +:+ dq +:+ ": " +:+ dq +:+ "Networks" +:+ dq +:+ "}".

(** A runtime in which the model answers each kind of request as asked: a
    fenced JSON style for an image, a JSON content for a text, and an SVG
    with some words around it. *)
Definition scripted_runtime : Runtime :=
  {| requests_post := λ _ r,
       Ret (reply 200 (PStr
         match r with
         | PageRequest _ _ | ImageRequest _ =>
             "```json" +:+ nl +:+ sample_style_json +:+ nl +:+ "```"
         | ContentRequest _ => sample_content_json
         | SvgRequest _ => "Here: <svg><rect/></svg> Done."
         end));
     json_loads := λ s,
       if String.eqb s sample_style_json then Some sample_style
       else if String.eqb s sample_content_json then Some sample_content
       else None;
     b64encode := λ s, s;
     py_str := λ v, match v with PStr s => s | _ => "" end;
     dict_keys := λ d, (map_to_list d).*1 |}.

(** A runtime in which only the first request is answered, with the style
    of [scripted_runtime]; every later one gets status 500. *)
Definition first_only_runtime : Runtime :=
  {| requests_post := λ k r,
       if Nat.eqb k 0 then @requests_post scripted_runtime k r
       else Ret (reply 500 (PStr ""));
     json_loads := @json_loads scripted_runtime;
     b64encode := λ s, s;
     py_str := λ v, match v with PStr s => s | _ => "" end;
     dict_keys := λ d, (map_to_list d).*1 |}.

(** ** Notions used in the further properties *)

(** The category field of a style can be merged: the style is a dict and
    the field is missing, falsy or a dict. *)
Definition category_ok_in (category : string) (style : pyval) : bool :=
  match style with
  | PDict d => from_option MergeStyles.category_ok true (d !! category)
  | _ => false
  end.

(** A string without any backtick. *)
Fixpoint no_backtick (s : string) : bool :=
  match s with
  | EmptyString => true
  | String c s' => negb (Ascii.eqb c "`"%char) && no_backtick s'
  end.

(** The two markers that the code removes from a reply. *)
Definition fence : string := "```".
Definition json_fence : string := "```json".


(** The runtime [scripted_runtime] with another reply to the SVG request. *)
Definition svg_runtime (svg_content : string) : Runtime :=
  {| requests_post := λ k r,
       match r with
       | SvgRequest _ => Ret (reply 200 (PStr svg_content))
       | _ => @requests_post scripted_runtime k r
       end;
     json_loads := @json_loads scripted_runtime;
     b64encode := λ s, s;
     py_str := λ v, match v with PStr s => s | _ => "" end;
     dict_keys := λ d, (map_to_list d).*1 |}.



(** * Properties *)

(** ** The merge of page styles *)

Section MergeFacts.
Import MergeStyles.

Lemma merge_items_lookup (merged items : gmap string pyval) (key : string) :
  merge_items merged items !! key =
    match merged !! key with
    | Some v => Some v
    | None =>
        match items !! key with
        | Some v => if truthy v then Some v else None
        | None => None
        end
    end.
Proof.
  unfold merge_items.
  apply (map_fold_weak_ind (λ r (m : gmap string pyval), r !! key =
    match merged !! key with
    | Some v => Some v
    | None => match m !! key with
              | Some v => if truthy v then Some v else None
              | None => None
              end
    end)).
  - rewrite lookup_empty. by destruct (merged !! key).
  - intros i x m r Hi IH.
    destruct (decide (i = key)) as [->|Hne].
    + rewrite lookup_insert_eq. rewrite Hi in IH.
      destruct (r !! key) eqn:Hr.
      * rewrite Hr. by destruct (merged !! key).
      * destruct (truthy x).
        -- rewrite lookup_insert_eq. by destruct (merged !! key).
        -- rewrite Hr. by destruct (merged !! key).
    + rewrite (lookup_insert_ne m i key x Hne).
      destruct (r !! i); [exact IH|].
      destruct (truthy x); [|exact IH].
      by rewrite lookup_insert_ne.
Qed.

Lemma truthy_dict_nonempty (d : gmap string pyval) : truthy (PDict d) = false → d = ∅.
Proof. simpl. case_bool_decide; [done|discriminate]. Qed.

Lemma style_ok_category (style : pyval) (category : string) :
  style_ok style = true → category ∈ categories →
  ∃ d, style = PDict d ∧ from_option category_ok true (d !! category) = true.
Proof.
  intros Hok Hin. destruct style; try discriminate. exists d. split; [done|].
  cbn [style_ok] in Hok. rewrite forallb_forall in Hok. apply Hok.
  by apply list_elem_of_In.
Qed.

Lemma merge_category_spec (category : string) (styles_list : list pyval) :
  category ∈ categories → forallb style_ok styles_list = true →
  ∀ merged, ∃ m,
    merge_category category styles_list merged = Ret m ∧
    ∀ key, m !! key = match merged !! key with
                      | Some v => Some v
                      | None => first_write category key styles_list
                      end.
Proof.
  intros Hcat. induction styles_list as [|style rest IH]; intros Hok merged.
  - exists merged. split; [done|]. intros key. simpl. by destruct (merged !! key).
  - simpl in Hok. apply andb_prop in Hok as [Hs Hrest].
    destruct (style_ok_category style category Hs Hcat) as (d & -> & Hc).
    specialize (IH Hrest). cbn [merge_category py_get mbind outcome_bind].
    destruct (d !! category) as [v|] eqn:Hd; cbn [from_option id].
    + destruct (truthy v) eqn:Hv.
      * destruct v as [| | | | | |c]; try (cbn [from_option category_ok] in Hc; rewrite Hv in Hc; discriminate).
        cbn [py_getitem]. rewrite Hd. cbn [py_items mbind outcome_bind].
        destruct (IH (merge_items merged c)) as (m & Hm & Hlook).
        exists m. split; [done|]. intros key. rewrite Hlook, merge_items_lookup.
        destruct (merged !! key); [done|].
        cbn [first_write category_value]. rewrite Hd.
        destruct (c !! key) as [w|]; [|done]. by destruct (truthy w).
      * destruct (IH merged) as (m & Hm & Hlook).
        exists m. split; [done|]. intros key. rewrite Hlook.
        destruct (merged !! key); [done|].
        cbn [first_write category_value]. rewrite Hd.
        destruct v; try done.
        apply truthy_dict_nonempty in Hv as ->. by rewrite lookup_empty.
    + cbn [truthy]. destruct (IH merged) as (m & Hm & Hlook).
      exists m. split; [done|]. intros key. rewrite Hlook.
      destruct (merged !! key); [done|].
      cbn [first_write category_value]. by rewrite Hd.
Qed.

Lemma any_has_diagrams_spec (styles_list : list pyval) :
  forallb style_ok styles_list = true →
  any_has_diagrams styles_list = Ret (diagrams_disjunction styles_list).
Proof.
  induction styles_list as [|style rest IH]; intros Hok; [done|].
  simpl in Hok. apply andb_prop in Hok as [Hs Hrest].
  destruct style; try discriminate.
  cbn [any_has_diagrams py_get mbind outcome_bind].
  unfold diagrams_disjunction. cbn [existsb has_diagrams_of].
  destruct (d !! "has_diagrams") as [v|]; cbn [from_option id].
  - destruct (truthy v); [done|]. by apply IH.
  - cbn [truthy]. by apply IH.
Qed.

Lemma merge_brand_spec (styles_list : list pyval) :
  forallb style_ok styles_list = true →
  merge_brand styles_list (PStr "") = Ret (first_brand styles_list).
Proof.
  induction styles_list as [|style rest IH]; intros Hok; [done|].
  simpl in Hok. apply andb_prop in Hok as [Hs Hrest].
  destruct style; try discriminate.
  cbn [merge_brand py_get mbind outcome_bind first_brand brand_of].
  destruct (d !! "brand_description") as [v|] eqn:Hd; cbn [from_option id].
  - destruct (truthy v); cbn [andb truthy negb].
    + cbn [py_getitem]. by rewrite Hd.
    + by apply IH.
  - cbn [truthy andb]. by apply IH.
Qed.

Lemma merge_styles_spec (styles_list : list pyval) :
  (2 ≤ length styles_list)%nat → forallb style_ok styles_list = true →
  ∃ color_palette typography layout visual_style,
    merge_styles styles_list =
      Ret (merged_style color_palette typography layout visual_style
             (first_brand styles_list) (diagrams_disjunction styles_list)) ∧
    (∀ key, color_palette !! key = first_write "color_palette" key styles_list) ∧
    (∀ key, typography !! key = first_write "typography" key styles_list) ∧
    (∀ key, layout !! key = first_write "layout" key styles_list) ∧
    (∀ key, visual_style !! key = first_write "visual_style" key styles_list).
Proof.
  intros Hlen Hok.
  destruct styles_list as [|s1 [|s2 rest]]; [simpl in Hlen; lia..|].
  set (styles := s1 :: s2 :: rest) in *.
  assert (Hcat : ∀ c, c ∈ categories → ∃ m,
             merge_category c styles ∅ = Ret m ∧
             ∀ key, m !! key = first_write c key styles).
  { intros c Hc. destruct (merge_category_spec c styles Hc Hok ∅) as (m & Hm & Hl).
    exists m. split; [done|]. intros key. by rewrite Hl, lookup_empty. }
  destruct (Hcat "color_palette") as (cp & Hcp & Lcp); [set_solver|].
  destruct (Hcat "typography") as (ty & Hty & Lty); [set_solver|].
  destruct (Hcat "layout") as (lo & Hlo & Llo); [set_solver|].
  destruct (Hcat "visual_style") as (vs & Hvs & Lvs); [set_solver|].
  exists cp, ty, lo, vs. split; [|done].
  change (merge_styles styles) with
    (has_diagrams ← any_has_diagrams styles;
     color_palette ← merge_category "color_palette" styles ∅;
     typography ← merge_category "typography" styles ∅;
     layout ← merge_category "layout" styles ∅;
     visual_style ← merge_category "visual_style" styles ∅;
     brand_description ← merge_brand styles (PStr "");
     Ret (merged_style color_palette typography layout visual_style
            brand_description has_diagrams)).
  by rewrite (any_has_diagrams_spec styles Hok), Hcp, Hty, Hlo, Hvs,
    (merge_brand_spec styles Hok).
Qed.

(** C1. For a list of at least two page styles, [merge_styles] returns a
    dict in which each category maps every key to the value of the first style,
    in list order, whose category dictionary holds a truthy value for it (and
    has no other key), [brand_description] is the first non-empty one in list
    order, and [has_diagrams] is the disjunction of the styles' fields. *)
Theorem merge_styles_first_write_wins (styles_list : list pyval) :
  (2 ≤ length styles_list)%nat → forallb style_ok styles_list = true →
  ∃ merged : gmap string pyval,
    merge_styles styles_list = Ret (PDict merged) ∧
    (∀ category, category ∈ categories →
       ∃ c : gmap string pyval,
         merged !! category = Some (PDict c) ∧
         ∀ key, c !! key = first_write category key styles_list) ∧
    merged !! "brand_description" = Some (first_brand styles_list) ∧
    merged !! "has_diagrams" = Some (PBool (diagrams_disjunction styles_list)).
Proof.
  intros Hlen Hok.
  destruct (merge_styles_spec styles_list Hlen Hok)
    as (cp & ty & lo & vs & Hm & Hcp & Hty & Hlo & Hvs).
  eexists. split; [exact Hm|]. split; [|done].
  intros category Hcat. unfold categories in Hcat.
  repeat (apply elem_of_cons in Hcat as [->|Hcat]); [eauto..|].
  by apply elem_of_nil in Hcat.
Qed.

(** C7, as amended. For a list of at least two page styles, the record that
    [merge_styles] returns has the nested fields [color_palette],
    [typography], [layout] and [visual_style] and the field
    [brand_description]. *)
Theorem merge_styles_has_fields (styles_list : list pyval) :
  (2 ≤ length styles_list)%nat → forallb style_ok styles_list = true →
  has_style_fields (merge_styles styles_list).
Proof.
  intros Hlen Hok.
  destruct (merge_styles_spec styles_list Hlen Hok)
    as (cp & ty & lo & vs & Hm & _).
  unfold has_style_fields. rewrite Hm. by eexists _, cp, ty, lo, vs, _.
Qed.

(** C9. On a one-element list [merge_styles] returns the element as it is,
    whatever fields it has; on the empty list it returns [None]. *)
Theorem merge_styles_singleton (style : pyval) :
  merge_styles [style] = Ret style ∧ merge_styles [] = Ret PNone.
Proof. split; reflexivity. Qed.

End MergeFacts.

(** ** Searching and slicing strings *)

Section StrFacts.
Import PyStr.

Lemma app_length (a b : string) :
  String.length (a +:+ b) = (String.length a + String.length b)%nat.
Proof. induction a as [|c a IH]; simpl; [done|]. by rewrite IH. Qed.

Lemma prefix_app (sub s : string) :
  String.prefix sub s = true ↔ ∃ after, s = sub +:+ after.
Proof.
  revert s. induction sub as [|c sub IH]; intros s; simpl.
  - destruct s; split; eauto.
  - destruct s as [|c' s]; simpl; [split; [done|intros [? ?]; done]|].
    destruct (ascii_dec c c') as [->|Hne].
    + rewrite IH. split; intros [after Ha]; exists after; [by rewrite Ha|by injection Ha].
    + split; [done|]. intros [after Ha]. injection Ha as -> _. done.
Qed.

Lemma occurs_at_0 (sub s : string) : occurs_at sub s 0 ↔ String.prefix sub s = true.
Proof.
  rewrite prefix_app. split.
  - intros (before & after & -> & Hlen). destruct before; [|done]. by exists after.
  - intros [after ->]. by exists EmptyString, after.
Qed.

Lemma occurs_at_S (sub : string) (c : ascii) (s : string) (k : nat) :
  occurs_at sub (String c s) (S k) ↔ occurs_at sub s k.
Proof.
  split.
  - intros (before & after & Heq & Hlen). destruct before as [|c' before]; [done|].
    simpl in Heq, Hlen. injection Heq as -> ->. exists before, after. split; [done|lia].
  - intros (before & after & -> & Hlen). exists (String c before), after.
    split; [done|]. simpl. lia.
Qed.

Lemma occurs_at_empty (sub : string) (k : nat) :
  occurs_at sub EmptyString k → k = 0%nat.
Proof. intros (before & after & Heq & Hlen). destruct before; [done|discriminate]. Qed.

Lemma find_from_first (sub s : string) (n : nat) (i : Z) :
  first_occurrence sub s n → find_from sub s i = (i + Z.of_nat n)%Z.
Proof.
  revert n i. induction s as [|c s IH]; intros n i [Hocc Hmin].
  - apply occurs_at_empty in Hocc as Hn. subst n.
    apply occurs_at_0 in Hocc. cbn [find_from]. rewrite Hocc. lia.
  - destruct n as [|n].
    + apply occurs_at_0 in Hocc. cbn [find_from]. rewrite Hocc. lia.
    + cbn [find_from].
      destruct (String.prefix sub (String c s)) eqn:Hp.
      { apply occurs_at_0 in Hp. destruct (Hmin 0%nat); [lia|done]. }
      rewrite (IH n); [lia|]. split; [by apply occurs_at_S in Hocc|].
      intros k Hk Hoc. apply (Hmin (S k)); [lia|]. by apply occurs_at_S.
Qed.

Lemma find_from_none (sub s : string) (i : Z) :
  (∀ k, ¬ occurs_at sub s k) → find_from sub s i = (-1)%Z.
Proof.
  revert i. induction s as [|c s IH]; intros i Hno; cbn [find_from].
  - destruct (String.prefix sub EmptyString) eqn:Hp; [|done].
    apply occurs_at_0 in Hp. by destruct (Hno 0%nat).
  - destruct (String.prefix sub (String c s)) eqn:Hp.
    { apply occurs_at_0 in Hp. by destruct (Hno 0%nat). }
    apply IH. intros k Hoc. apply (Hno (S k)). by apply occurs_at_S.
Qed.

Lemma first_occurrence_unique (sub s : string) (n m : nat) :
  first_occurrence sub s n → first_occurrence sub s m → n = m.
Proof.
  intros Hn Hm. apply (find_from_first _ _ _ 0%Z) in Hn, Hm. lia.
Qed.

Lemma occurrence_cases (sub s : string) :
  (∀ k, ¬ occurs_at sub s k) ∨ ∃ n, first_occurrence sub s n.
Proof.
  induction s as [|c s IH].
  - destruct (String.prefix sub EmptyString) eqn:Hp.
    + right. exists 0%nat. split; [by apply occurs_at_0|]. intros j Hj. lia.
    + left. intros k Hocc. apply occurs_at_empty in Hocc as Hk. subst k.
      apply occurs_at_0 in Hocc. congruence.
  - destruct (String.prefix sub (String c s)) eqn:Hp.
    + right. exists 0%nat. split; [by apply occurs_at_0|]. intros j Hj. lia.
    + destruct IH as [Hno|[n [Hocc Hmin]]].
      * left. intros [|k] Hocc.
        -- apply occurs_at_0 in Hocc. congruence.
        -- apply occurs_at_S in Hocc. by apply (Hno k).
      * right. exists (S n). split; [by apply occurs_at_S|].
        intros [|j] Hj Hoc.
        -- apply occurs_at_0 in Hoc. congruence.
        -- apply occurs_at_S in Hoc. apply (Hmin j); [lia|done].
Qed.

(** The converse of [find_from_first]: a result that is not [-1] is the
    index of the first occurrence. *)
Lemma find_first (s sub : string) (n : nat) :
  find s sub = Z.of_nat n → first_occurrence sub s n.
Proof.
  unfold find. intros Hfind.
  destruct (occurrence_cases sub s) as [Hno|[m Hm]].
  - rewrite (find_from_none _ _ _ Hno) in Hfind. lia.
  - rewrite (find_from_first _ _ _ _ Hm) in Hfind.
    by replace n with m by lia.
Qed.

Lemma find_absent (s sub : string) :
  find s sub = (-1)%Z → ∀ k, ¬ occurs_at sub s k.
Proof.
  unfold find. intros Hfind.
  destruct (occurrence_cases sub s) as [Hno|[m Hm]]; [done|].
  rewrite (find_from_first _ _ _ _ Hm) in Hfind. lia.
Qed.

Lemma occurs_at_bound (sub s : string) (k : nat) :
  occurs_at sub s k → (k + String.length sub ≤ String.length s)%nat.
Proof.
  intros (before & after & -> & <-). rewrite !app_length. lia.
Qed.

Lemma substring_span (s : string) (n m : nat) :
  (n + m ≤ String.length s)%nat → span s n (n + m) (substring n m s).
Proof.
  revert n m. induction s as [|c s IH]; intros n m Hlen; simpl in Hlen.
  - assert (n = 0%nat) as -> by lia. assert (m = 0%nat) as -> by lia.
    by exists EmptyString, EmptyString.
  - destruct n as [|n].
    + destruct m as [|m].
      * by exists EmptyString, (String c s).
      * destruct (IH 0%nat m) as (before & after & Heq & Hb & Hr); [lia|].
        destruct before; [|done]. simpl in Hr.
        exists EmptyString, after. split; [|split; [done|simpl; lia]].
        change (String c s = String c (EmptyString +:+ substring 0 m s +:+ after)).
        by rewrite <- Heq.
    + destruct (IH n m) as (before & after & Heq & Hb & Hr); [lia|].
      exists (String c before), after. split; [|simpl; split; lia].
      change (String c s = String c (before +:+ substring n m s +:+ after)).
      by rewrite <- Heq.
Qed.

Lemma slice_span (s : string) (start stop : nat) :
  (start ≤ stop)%nat → (stop ≤ String.length s)%nat →
  span s start stop (slice s (Z.of_nat start) (Z.of_nat stop)).
Proof.
  intros H1 H2. unfold slice, slice_index.
  destruct (Z.ltb_spec (Z.of_nat start) 0); [lia|].
  destruct (Z.ltb_spec (Z.of_nat stop) 0); [lia|].
  rewrite !Z.min_r by lia. rewrite !Z.max_r by lia.
  replace (Z.to_nat (Z.of_nat stop - Z.of_nat start)) with (stop - start)%nat by lia.
  rewrite Nat2Z.id.
  replace stop with (start + (stop - start))%nat at 1 by lia.
  apply substring_span. lia.
Qed.

End StrFacts.

(** ** The operations that call the API *)

Section EffectFacts.
Context `{Runtime}.

Ltac failed := do 2 eexists; split; [reflexivity|]; right; split; [done|]; eexists; reflexivity.
Ltac run := unfold try_except, mbind, M_bind, mret, M_ret, post, ui, emit, lift.

Lemma analyze_page_image_non_200 (base64_image : string) (page_num k : nat)
    (resp : response) :
  requests_post k (PageRequest page_num base64_image) = Ret resp →
  status_code resp ≠ 200%Z →
  analyze_page_image base64_image page_num k =
    (Ret PNone,
     [Post (PageRequest page_num base64_image);
      Ui Warning (PageHttpFailure page_num (status_code resp) (text resp))]).
Proof.
  intros Hpost Hstatus. unfold analyze_page_image. run.
  rewrite Hpost. apply Z.eqb_neq in Hstatus. by rewrite Hstatus.
Qed.

Lemma analyze_page_image_total (base64_image : string) (page_num k : nat) :
  ∃ r evs,
    analyze_page_image base64_image page_num k = (Ret r, evs) ∧
    ((api_success k (PageRequest page_num base64_image) r ∧
      evs = [Post (PageRequest page_num base64_image)]) ∨
     (r = PNone ∧
      ∃ m, evs = [Post (PageRequest page_num base64_image); Ui Warning m])).
Proof.
  unfold analyze_page_image. run.
  destruct (requests_post k _) as [resp|e] eqn:Hpost; [|failed].
  destruct (Z.eqb_spec (status_code resp) 200) as [Hs|Hs]; [|failed].
  destruct (json resp) as [result|e] eqn:Hjson; [|failed].
  destruct (message_content result) as [content|e] eqn:Hcontent; [|failed].
  destruct (strip_fences content) as [s|e] eqn:Hstrip; [|failed].
  destruct (json_loads s) as [style_data|] eqn:Hloads; [|failed].
  do 2 eexists. split; [done|]. left. split; [|done].
  exists resp, s. unfold parsed_content. rewrite Hjson. cbn [mbind outcome_bind].
  rewrite Hcontent. cbn [mbind outcome_bind]. by rewrite Hstrip.
Qed.

Lemma process_user_request_non_200 (user_input : string) (k : nat) (resp : response) :
  requests_post k (ContentRequest user_input) = Ret resp →
  status_code resp ≠ 200%Z →
  process_user_request user_input k =
    (Ret PNone,
     [Post (ContentRequest user_input); Ui Error (ContentHttpFailure (status_code resp))]).
Proof.
  intros Hpost Hstatus. unfold process_user_request. run.
  rewrite Hpost. apply Z.eqb_neq in Hstatus. by rewrite Hstatus.
Qed.

Lemma process_user_request_total (user_input : string) (k : nat) :
  ∃ r evs,
    process_user_request user_input k = (Ret r, evs) ∧
    ((api_success k (ContentRequest user_input) r ∧
      evs = [Post (ContentRequest user_input)]) ∨
     (r = PNone ∧ ∃ m, evs = [Post (ContentRequest user_input); Ui Error m])).
Proof.
  unfold process_user_request. run.
  destruct (requests_post k _) as [resp|e] eqn:Hpost; [|failed].
  destruct (Z.eqb_spec (status_code resp) 200) as [Hs|Hs]; [|failed].
  destruct (json resp) as [result|e] eqn:Hjson; [|failed].
  destruct (message_content result) as [content|e] eqn:Hcontent; [|failed].
  destruct (strip_fences content) as [s|e] eqn:Hstrip; [|failed].
  destruct (json_loads s) as [content_data|] eqn:Hloads; [|failed].
  do 2 eexists. split; [done|]. left. split; [|done].
  exists resp, s. unfold parsed_content. rewrite Hjson. cbn [mbind outcome_bind].
  rewrite Hcontent. cbn [mbind outcome_bind]. by rewrite Hstrip.
Qed.

Lemma analyze_single_image_non_200 (image_data : image_source) (raw : string)
    (k : nat) (resp : response) :
  read_image image_data = Ret raw →
  requests_post k (ImageRequest (b64encode raw)) = Ret resp →
  status_code resp ≠ 200%Z →
  analyze_ppt_style_single_image image_data k =
    (Ret PNone,
     [Post (ImageRequest (b64encode raw)); Ui Error (StyleHttpFailure (status_code resp))]).
Proof.
  intros Hread Hpost Hstatus. unfold analyze_ppt_style_single_image. run.
  rewrite Hread. simpl. rewrite Nat.add_0_r, Hpost.
  apply Z.eqb_neq in Hstatus. by rewrite Hstatus.
Qed.

Lemma generate_svg_non_200 (style_data content_data : pyval) (prompt : string)
    (k : nat) (resp : response) :
  create_svg_prompt style_data content_data = Ret prompt →
  requests_post k (SvgRequest prompt) = Ret resp →
  status_code resp ≠ 200%Z →
  generate_svg style_data content_data k =
    (Ret (PNone, PNone),
     [Post (SvgRequest prompt); Ui Error (SvgHttpFailure (status_code resp))]).
Proof.
  intros Hprompt Hpost Hstatus. unfold generate_svg. run.
  rewrite Hprompt. simpl. rewrite Nat.add_0_r, Hpost.
  apply Z.eqb_neq in Hstatus. by rewrite Hstatus.
Qed.

(** The two branches of lines 370-378, on a reply with status 200 whose
    content is a string. *)
Lemma generate_svg_reply (style_data content_data : pyval) (prompt svg_content : string)
    (k : nat) :
  create_svg_prompt style_data content_data = Ret prompt →
  svg_reply k prompt svg_content →
  generate_svg style_data content_data k =
    if negb (Z.eqb (PyStr.find svg_content "<svg") (-1))
       && negb (Z.eqb (PyStr.find svg_content "</svg>" + 6) (-1))
    then (Ret (PStr (PyStr.slice svg_content (PyStr.find svg_content "<svg")
                       (PyStr.find svg_content "</svg>" + 6)), PStr prompt),
          [Post (SvgRequest prompt)])
    else (Ret (PNone, PNone), [Post (SvgRequest prompt); Ui Error SvgNotFound]).
Proof.
  intros Hprompt (resp & result & Hpost & Hstatus & Hjson & Hcontent).
  unfold generate_svg. run.
  rewrite Hprompt. simpl. rewrite Nat.add_0_r, Hpost, Hstatus. simpl.
  rewrite Hjson, Hcontent. simpl.
  by destruct (negb _ && negb _).
Qed.

(** [generate_svg] raises only when [create_svg_prompt] does, before any
    request; otherwise it posts the prompt once and reports at most one
    error. *)
Lemma generate_svg_events (style_data content_data : pyval) (k : nat) :
  (∃ e, create_svg_prompt style_data content_data = Raise e ∧
        generate_svg style_data content_data k = (Raise e, [])) ∨
  (∃ prompt svg_content final_prompt evs,
     create_svg_prompt style_data content_data = Ret prompt ∧
     generate_svg style_data content_data k =
       (Ret (svg_content, final_prompt), Post (SvgRequest prompt) :: evs) ∧
     (evs = [] ∨ ∃ m, evs = [Ui Error m])).
Proof.
  unfold generate_svg. run.
  destruct (create_svg_prompt style_data content_data) as [prompt|e]; [|left; eauto].
  right. exists prompt. simpl.
  destruct (requests_post _ _) as [resp|e]; [|by eauto 10].
  destruct (Z.eqb (status_code resp) 200); [|by eauto 10].
  destruct (json resp) as [result|e]; [|by eauto 10].
  destruct (message_content result) as [content|e]; [|by eauto 10].
  destruct (as_str content) as [s|e]; [|by eauto 10].
  simpl. destruct (negb _ && negb _); by eauto 10.
Qed.

Lemma count_posts_app (a b : list event) :
  count_posts (a ++ b) = (count_posts a + count_posts b)%nat.
Proof. unfold count_posts. by rewrite filter_app, length_app. Qed.

Lemma count_pixmaps_app (a b : list event) :
  count_pixmaps (a ++ b) = (count_pixmaps a + count_pixmaps b)%nat.
Proof. unfold count_pixmaps. by rewrite filter_app, length_app. Qed.

(** One turn of the loop renders at most its own page and posts at most
    the request for it. *)
Lemma analyze_page_events (doc : list page) (all_styles : list pyval)
    (page_num n k : nat) (r : outcome (list pyval)) (evs : list event) :
  (page_num < n)%nat →
  analyze_page doc all_styles page_num k = (r, evs) →
  Forall (page_event n) evs ∧ (count_pixmaps evs ≤ 1)%nat ∧ (count_posts evs ≤ 1)%nat.
Proof.
  intros Hlt. unfold analyze_page. run.
  destruct (doc !! page_num) as [pg|]; cbn [from_option].
  2:{ intros [= <- <-]. repeat constructor. }
  destruct pg as [img_data|e].
  2:{ intros [= <- <-]. repeat constructor. simpl. lia. }
  match goal with
  | |- context [analyze_page_image ?b ?p ?k'] =>
      destruct (analyze_page_image_total b p k') as (style & pevs & -> & Hshape)
  end.
  assert (Hp : (1 ≤ page_num + 1 ≤ n)%nat) by lia.
  destruct Hshape as [[_ ->]|[_ [m ->]]]; destruct (truthy style);
    intros [= <- <-]; (split; [repeat constructor; simpl; lia|by vm_compute]).
Qed.

Lemma for_each_events {A : Type} (f : A → nat → M A) (P : event → Prop) (l : list nat) :
  (∀ acc i k r evs, i ∈ l → f acc i k = (r, evs) →
     Forall P evs ∧ (count_pixmaps evs ≤ 1)%nat ∧ (count_posts evs ≤ 1)%nat) →
  ∀ acc k r evs, for_each f l acc k = (r, evs) →
    Forall P evs ∧ (count_pixmaps evs ≤ length l)%nat ∧ (count_posts evs ≤ length l)%nat.
Proof.
  induction l as [|i l IH]; intros Hf acc k r evs.
  - intros [= <- <-]. repeat constructor.
  - cbn [for_each]. unfold mbind, M_bind.
    destruct (f acc i k) as [[acc'|e] evs1] eqn:Hstep.
    + destruct (Hf _ _ _ _ _ ltac:(left) Hstep) as (HP & Hpx & Hpo).
      destruct (for_each f l acc' _) as [r2 evs2] eqn:Hrest.
      apply IH in Hrest as (HP2 & Hpx2 & Hpo2).
      2:{ intros ????? Hin. apply Hf. by right. }
      intros [= <- <-]. rewrite Forall_app, count_pixmaps_app, count_posts_app.
      simpl. split; [done|lia].
    + destruct (Hf _ _ _ _ _ ltac:(left) Hstep) as (HP & Hpx & Hpo).
      intros [= <- <-]. simpl. split; [done|lia].
Qed.

Lemma for_each_ext {A : Type} (f g : A → nat → M A) (l : list nat) :
  (∀ acc i k, i ∈ l → f acc i k = g acc i k) →
  ∀ acc k, for_each f l acc k = for_each g l acc k.
Proof.
  induction l as [|i l IH]; intros Hfg acc k; [done|].
  cbn [for_each]. unfold mbind, M_bind. rewrite Hfg by left.
  destruct (g acc i k) as [[acc'|e] evs1]; [|done].
  rewrite IH; [done|]. intros ??? Hin. apply Hfg. by right.
Qed.

(** [analyze_pdf_with_gpt4v] on an opened document, by the way the loop
    ends. *)
Lemma analyze_pdf_unfold (doc : list page) (k : nat) :
  analyze_pdf_with_gpt4v (Ret doc) k =
    match analyze_pages doc k with
    | (Ret all_styles, evs) =>
        if bool_decide (all_styles = []) then
          (Ret PNone, Ui Info (PdfPages (length doc)) :: evs ++ [Ui Error NoStyles])
        else
          match MergeStyles.merge_styles all_styles with
          | Ret unified_style =>
              (Ret unified_style,
               Ui Info (PdfPages (length doc)) :: evs
                 ++ [Ui Success (Unified (length all_styles))])
          | Raise e =>
              (Ret PNone, Ui Info (PdfPages (length doc)) :: evs ++ failure_report e)
          end
    | (Raise e, evs) =>
        (Ret PNone, Ui Info (PdfPages (length doc)) :: evs ++ failure_report e)
    end.
Proof.
  unfold analyze_pdf_with_gpt4v, analyze_pages, failure_report. run. simpl.
  rewrite !Nat.add_0_r.
  destruct (for_each _ _ _ _) as [[all_styles|e] evs]; [|done].
  case_bool_decide; simpl; [done|].
  destruct (MergeStyles.merge_styles all_styles); simpl.
  all: by rewrite ?app_nil_r.
Qed.

Lemma analyze_pdf_unreadable (e : exn) (k : nat) :
  analyze_pdf_with_gpt4v (Raise e) k = (Ret PNone, failure_report e).
Proof. reflexivity. Qed.

Lemma analyze_pages_take (doc : list page) (k : nat) :
  analyze_pages (take 10 doc) k = analyze_pages doc k.
Proof.
  unfold analyze_pages. rewrite length_take.
  replace (Nat.min 10 (Nat.min 10 (length doc))) with (Nat.min 10 (length doc)) by lia.
  apply for_each_ext. intros acc i k' Hin.
  apply elem_of_seq in Hin. unfold analyze_page.
  rewrite lookup_take_lt; [done|lia].
Qed.

Lemma analyze_pages_events (doc : list page) (k : nat) (r : outcome (list pyval))
    (evs : list event) :
  analyze_pages doc k = (r, evs) →
  Forall (page_event (Nat.min 10 (length doc))) evs ∧
  (count_pixmaps evs ≤ Nat.min 10 (length doc))%nat ∧
  (count_posts evs ≤ Nat.min 10 (length doc))%nat.
Proof.
  intros Hrun. unfold analyze_pages in Hrun.
  apply (for_each_events _ (page_event (Nat.min 10 (length doc)))) in Hrun.
  - by rewrite length_seq in Hrun.
  - intros acc i k' r' evs' Hin. apply analyze_page_events.
    apply elem_of_seq in Hin. lia.
Qed.

Lemma page_event_stage (n : nat) (e : event) :
  page_event n e → stage_event StyleStage e.
Proof. by destruct e as [[]| | | |]. Qed.

(** [analyze_pdf_with_gpt4v] never raises; it returns [None] or the merge of
    the styles of the pages, and all it does belongs to the style stage. *)
Lemma analyze_pdf_total (pdf_file : outcome (list page)) (k : nat) :
  ∃ r evs,
    analyze_pdf_with_gpt4v pdf_file k = (Ret r, evs) ∧
    Forall (stage_event StyleStage) evs ∧
    (r = PNone ∨
     ∃ all_styles, all_styles ≠ [] ∧ MergeStyles.merge_styles all_styles = Ret r).
Proof.
  destruct pdf_file as [doc|e].
  2:{ rewrite analyze_pdf_unreadable. do 2 eexists. split; [done|].
      split; [repeat constructor|by left]. }
  rewrite analyze_pdf_unfold.
  destruct (analyze_pages doc k) as [[all_styles|e] evs] eqn:Hloop;
    apply analyze_pages_events in Hloop as (Hev & _);
    pose proof (Forall_impl _ _ _ Hev (page_event_stage _)) as Hev1.
  - case_bool_decide as Hnil.
    + do 2 eexists. split; [done|]. split; [|by left].
      constructor; [done|]. apply Forall_app. split; [done|repeat constructor].
    + destruct (MergeStyles.merge_styles all_styles) as [unified|e] eqn:Hmerge.
      * do 2 eexists. split; [done|]. split; [|right; eauto].
        constructor; [done|]. apply Forall_app. split; [done|repeat constructor].
      * do 2 eexists. split; [done|]. split; [|by left].
        constructor; [done|]. apply Forall_app. split; [done|repeat constructor].
  - do 2 eexists. split; [done|]. split; [|by left].
    constructor; [done|]. apply Forall_app. split; [done|repeat constructor].
Qed.

Lemma process_user_request_stage (user_input : string) (k : nat) :
  ∃ r evs,
    process_user_request user_input k = (Ret r, evs) ∧
    Forall (stage_event ContentStage) evs.
Proof.
  destruct (process_user_request_total user_input k) as (r & evs & Hrun & Hshape).
  exists r, evs. split; [done|].
  destruct Hshape as [[_ ->]|[_ [m ->]]]; repeat constructor.
Qed.

Lemma generate_svg_stage (style_data content_data : pyval) (k : nat)
    (r : outcome (pyval * pyval)) (evs : list event) :
  generate_svg style_data content_data k = (r, evs) →
  Forall (stage_event SvgStage) evs.
Proof.
  destruct (generate_svg_events style_data content_data k)
    as [(e & _ & ->)|(prompt & svg & final & evs' & _ & -> & Hshape)];
    intros [= <- <-]; [constructor|].
  destruct Hshape as [->|[m ->]]; repeat constructor.
Qed.

(** The dict returned on success has the four fields. *)
Lemma slide_fields (svg_content style_data content_data final_prompt : pyval) :
  ∃ d : gmap string pyval,
    slide svg_content style_data content_data final_prompt = PDict d ∧
    d !! "svg_content" = Some svg_content ∧
    d !! "extracted_style" = Some style_data ∧
    d !! "processed_content" = Some content_data ∧
    d !! "final_prompt" = Some final_prompt.
Proof. eexists. split; [reflexivity|]. by repeat split. Qed.

(** C4. [generate_ppt_slide] runs the style analysis, then the content
    extraction, then the SVG generation on the results of the two, each stage
    inside its status block; when a stage yields [None] (or another falsy
    value) it returns [None] and the events end with that stage; when all
    three succeed it returns the dict whose entries are [svg_content],
    [extracted_style], [processed_content] and [final_prompt], holding the
    SVG, the style, the content and the prompt. *)
Theorem generate_ppt_slide_stages (uploaded_file : outcome (list page))
    (user_request : string) (k : nat) :
  pipeline_run uploaded_file user_request k
    (generate_ppt_slide uploaded_file user_request k).
Proof.
  destruct (analyze_pdf_total uploaded_file k) as (style_data & evs1 & Hstyle & Hev1 & _).
  destruct (process_user_request_stage user_request (k + count_posts evs1))
    as (content_data & evs2 & Hcontent & Hev2).
  destruct (generate_svg style_data content_data (k + count_posts evs1 + count_posts evs2))
    as [svg_result evs3] eqn:Hsvg.
  pose proof (generate_svg_stage _ _ _ _ _ Hsvg) as Hev3.
  unfold generate_ppt_slide. run.
  change (count_posts [StatusOpen StyleStage]) with 0%nat.
  change (count_posts [StatusUpdate StyleStage StateComplete]) with 0%nat.
  change (count_posts [StatusOpen ContentStage]) with 0%nat.
  change (count_posts [StatusUpdate ContentStage StateComplete]) with 0%nat.
  change (count_posts [StatusOpen SvgStage]) with 0%nat.
  rewrite !Nat.add_0_r, Hstyle.
  destruct (truthy style_data) eqn:Hs; cbn [negb].
  2:{ rewrite app_nil_r. by eapply StyleFailed. }
  cbv beta. rewrite !Nat.add_0_r, Hcontent.
  destruct (truthy content_data) eqn:Hc; cbn [negb].
  2:{ rewrite app_nil_r. by eapply ContentFailed. }
  cbv beta. rewrite !Nat.add_0_r, Hsvg.
  destruct svg_result as [[svg_content final_prompt]|e].
  2:{ by eapply SvgRaised. }
  destruct (truthy svg_content) eqn:Hv; cbn [negb]; rewrite app_nil_r.
  - unfold slide. by eapply Succeeded.
  - by eapply SvgFailed.
Qed.

End EffectFacts.

(** ** The extraction of the SVG *)

Section Extraction.
Context `{Runtime}.
Import PyStr.

(** When the opening marker is absent the failure is reported and
    [(None, None)] is returned. *)
Lemma generate_svg_no_opening_marker (style_data content_data : pyval)
    (prompt svg_content : string) (k : nat) :
  create_svg_prompt style_data content_data = Ret prompt →
  svg_reply k prompt svg_content →
  (∀ i, ¬ occurs_at "<svg" svg_content i) →
  generate_svg style_data content_data k =
    (Ret (PNone, PNone), [Post (SvgRequest prompt); Ui Error SvgNotFound]).
Proof.
  intros Hprompt Hreply Hno.
  rewrite (generate_svg_reply _ _ _ _ _ Hprompt Hreply).
  unfold find. by rewrite (find_from_none _ _ _ Hno).
Qed.

(** When the closing marker is absent and the opening one present,
    [svg_end] is [5]: nothing is reported, and the characters of the reply
    from the opening marker up to index [5] are returned. *)
Lemma generate_svg_no_closing_marker (style_data content_data : pyval)
    (prompt svg_content : string) (k i : nat) :
  create_svg_prompt style_data content_data = Ret prompt →
  svg_reply k prompt svg_content →
  first_occurrence "<svg" svg_content i →
  (∀ j, ¬ occurs_at "</svg>" svg_content j) →
  generate_svg style_data content_data k =
    (Ret (PStr (slice svg_content (Z.of_nat i) 5), PStr prompt),
     [Post (SvgRequest prompt)]).
Proof.
  intros Hprompt Hreply Hopen Hno.
  rewrite (generate_svg_reply _ _ _ _ _ Hprompt Hreply).
  unfold find. rewrite (find_from_none _ _ _ Hno), (find_from_first _ _ _ _ Hopen).
  destruct (Z.eqb_spec (0 + Z.of_nat i) (-1)); [lia|]. simpl negb. cbn [andb].
  by rewrite Z.add_0_l.
Qed.

(** C3, as amended. When the reply contains both markers and the first
    opening marker comes before the first closing marker, [generate_svg]
    returns the part of the reply from the start of the first opening marker
    to the end of the first closing marker, and the prompt. *)
Theorem generate_svg_extracts_span (style_data content_data : pyval)
    (prompt svg_content : string) (k i j : nat) :
  create_svg_prompt style_data content_data = Ret prompt →
  svg_reply k prompt svg_content →
  first_occurrence "<svg" svg_content i →
  first_occurrence "</svg>" svg_content j →
  (i < j)%nat →
  ∃ clean_svg,
    generate_svg style_data content_data k =
      (Ret (PStr clean_svg, PStr prompt), [Post (SvgRequest prompt)]) ∧
    span svg_content i (j + 6) clean_svg.
Proof.
  intros Hprompt Hreply Hopen Hclose Hlt.
  rewrite (generate_svg_reply _ _ _ _ _ Hprompt Hreply).
  unfold find.
  rewrite (find_from_first _ _ _ _ Hopen), (find_from_first _ _ _ _ Hclose).
  destruct (Z.eqb_spec (0 + Z.of_nat i) (-1)); [lia|].
  destruct (Z.eqb_spec (0 + Z.of_nat j + 6) (-1)); [lia|].
  cbn [negb andb]. eexists. split; [reflexivity|].
  replace (0 + Z.of_nat i)%Z with (Z.of_nat i) by lia.
  replace (0 + Z.of_nat j + 6)%Z with (Z.of_nat (j + 6)) by lia.
  apply slice_span; [lia|].
  destruct Hclose as [Hocc _]. apply occurs_at_bound in Hocc. simpl in Hocc. lia.
Qed.

End Extraction.

(** *** Replies with the markers missing or out of order *)

Lemma sample_svg_reply (content prompt : string) (k : nat) :
  @svg_reply (sample_runtime 200 content) k prompt content.
Proof. do 2 eexists. repeat split. Qed.

(** C2. A reply that opens an SVG and never closes it: the closing marker
    is absent, yet nothing is reported and the first five characters of the
    reply are returned as the SVG. *)
Theorem generate_svg_unclosed_svg :
  (∀ j, ¬ PyStr.occurs_at "</svg>" "<svg><rect/>" j) ∧
  @generate_svg (sample_runtime 200 "<svg><rect/>") sample_style sample_content 0 =
    (Ret (PStr "<svg>", PStr sample_prompt), [Post (SvgRequest sample_prompt)]).
Proof. split; [by apply find_absent|reflexivity]. Qed.

(** C3 fails as stated: in this reply both markers occur, the closing one
    first; the empty string is returned, which is not the part of the reply
    between the markers. *)
Lemma generate_svg_closing_marker_first :
  (∃ i, PyStr.occurs_at "<svg" "</svg> <svg>" i) ∧
  (∃ j, PyStr.occurs_at "</svg>" "</svg> <svg>" j) ∧
  ∃ clean_svg,
    @generate_svg (sample_runtime 200 "</svg> <svg>") sample_style sample_content 0 =
      (Ret (PStr clean_svg, PStr sample_prompt), [Post (SvgRequest sample_prompt)]) ∧
    ¬ extracted_span "</svg> <svg>" clean_svg.
Proof.
  split; [by exists 7%nat, "</svg> ", ">"|].
  split; [by exists 0%nat, EmptyString, " <svg>"|].
  exists EmptyString. split; [reflexivity|].
  intros (i & j & Hi & Hj & before & after & _ & Hb & Hr).
  assert (i = 7%nat) as ->.
  { eapply first_occurrence_unique; [exact Hi|]. by apply find_first. }
  assert (j = 0%nat) as ->.
  { eapply first_occurrence_unique; [exact Hj|]. by apply find_first. }
  simpl in Hr. lia.
Qed.

Lemma generate_svg_extracts_span_witness :
  ∃ clean_svg,
    @generate_svg (sample_runtime 200 "Here: <svg><rect/></svg> Done.")
       sample_style sample_content 0 =
      (Ret (PStr clean_svg, PStr sample_prompt), [Post (SvgRequest sample_prompt)]) ∧
    PyStr.span "Here: <svg><rect/></svg> Done." 6 (18 + 6) clean_svg.
Proof.
  apply (@generate_svg_extracts_span (sample_runtime 200 "Here: <svg><rect/></svg> Done.")).
  - reflexivity.
  - apply sample_svg_reply.
  - apply find_first. reflexivity.
  - apply find_first. reflexivity.
  - lia.
Defined.

(** What it extracts there. *)
Example generate_svg_sample :
  @generate_svg (sample_runtime 200 "Here: <svg><rect/></svg> Done.")
     sample_style sample_content 0 =
    (Ret (PStr "<svg><rect/></svg>", PStr sample_prompt),
     [Post (SvgRequest sample_prompt)]).
Proof. reflexivity. Qed.

(** ** Failures of the API *)

Section Failures.
Context `{Runtime}.

(** C5. When the reply has a status code other than 200, each operation
    has issued the one POST request, reports the failure once and returns
    [None] (a pair of [None] for [generate_svg]); there is no second
    request. *)
Theorem non_200_reported_once (k : nat) (resp : response) (req : request) :
  requests_post k req = Ret resp →
  status_code resp ≠ 200%Z →
  (∀ base64_image page_num,
     req = PageRequest page_num base64_image →
     analyze_page_image base64_image page_num k =
       (Ret PNone,
        [Post req; Ui Warning (PageHttpFailure page_num (status_code resp) (text resp))])) ∧
  (∀ image_data raw,
     read_image image_data = Ret raw →
     req = ImageRequest (b64encode raw) →
     analyze_ppt_style_single_image image_data k =
       (Ret PNone, [Post req; Ui Error (StyleHttpFailure (status_code resp))])) ∧
  (∀ user_input,
     req = ContentRequest user_input →
     process_user_request user_input k =
       (Ret PNone, [Post req; Ui Error (ContentHttpFailure (status_code resp))])) ∧
  (∀ style_data content_data prompt,
     create_svg_prompt style_data content_data = Ret prompt →
     req = SvgRequest prompt →
     generate_svg style_data content_data k =
       (Ret (PNone, PNone), [Post req; Ui Error (SvgHttpFailure (status_code resp))])).
Proof.
  intros Hpost Hstatus. repeat split.
  - intros base64_image page_num ->. by apply analyze_page_image_non_200.
  - intros image_data raw Hread ->. by apply analyze_single_image_non_200.
  - intros user_input ->. by apply process_user_request_non_200.
  - intros style_data content_data prompt Hprompt ->. by apply generate_svg_non_200.
Qed.

Ltac quiet_tail :=
  unfold failure_report;
  repeat match goal with
         | |- context [count_pixmaps (?e :: ?l)] =>
             change (count_pixmaps (e :: l)) with 0%nat
         | |- context [count_posts (?e :: ?l)] =>
             change (count_posts (e :: l)) with 0%nat
         end;
  lia.

(** C8. [analyze_pdf_with_gpt4v] does on a document what it does on its
    first ten pages, the page count in the first message apart: the result is
    the same and so are the events. These render only pages of index below
    [min 10 page_count] and post only requests for them, at most
    [min 10 page_count] of each. *)
Theorem analyze_pdf_first_ten_pages (doc : list page) (k : nat) :
  ∃ r evs,
    analyze_pdf_with_gpt4v (Ret doc) k =
      (Ret r, Ui Info (PdfPages (length doc)) :: evs) ∧
    analyze_pdf_with_gpt4v (Ret (take 10 doc)) k =
      (Ret r, Ui Info (PdfPages (length (take 10 doc))) :: evs) ∧
    Forall (page_event (Nat.min 10 (length doc))) evs ∧
    (count_pixmaps evs ≤ Nat.min 10 (length doc))%nat ∧
    (count_posts evs ≤ Nat.min 10 (length doc))%nat.
Proof.
  rewrite !analyze_pdf_unfold, analyze_pages_take.
  destruct (analyze_pages doc k) as [[all_styles|e] evs] eqn:Hloop;
    apply analyze_pages_events in Hloop as (Hev & Hpx & Hpo).
  - case_bool_decide as Hnil.
    + do 2 eexists. split; [done|]. split; [done|].
      rewrite Forall_app, count_pixmaps_app, count_posts_app.
      split; [split; [done|repeat constructor]|]. quiet_tail.
    + destruct (MergeStyles.merge_styles all_styles) as [unified|e].
      * do 2 eexists. split; [done|]. split; [done|].
        rewrite Forall_app, count_pixmaps_app, count_posts_app.
        split; [split; [done|repeat constructor]|]. quiet_tail.
      * do 2 eexists. split; [done|]. split; [done|].
        rewrite Forall_app, count_pixmaps_app, count_posts_app.
        split; [split; [done|repeat constructor]|]. quiet_tail.
  - do 2 eexists. split; [done|]. split; [done|].
    rewrite Forall_app, count_pixmaps_app, count_posts_app.
    split; [split; [done|repeat constructor]|]. quiet_tail.
Qed.

End Failures.

(** ** What is caught and what is not *)

Section Caught.
Context `{Runtime}.

Ltac run := unfold try_except, mbind, M_bind, mret, M_ret, post, ui, emit, lift.

Ltac quiet :=
  change (count_posts []) with 0%nat;
  repeat match goal with
         | |- context [count_posts (?e :: ?l)] =>
             change (count_posts (e :: l)) with 0%nat
         end;
  rewrite ?Nat.add_0_r.

Lemma api_success_unique (k : nat) (req : request) (r1 r2 : pyval) :
  api_success k req r1 → api_success k req r2 → r1 = r2.
Proof.
  intros (resp1 & c1 & Hp1 & _ & Hc1 & Hl1) (resp2 & c2 & Hp2 & _ & Hc2 & Hl2).
  rewrite Hp1 in Hp2. injection Hp2 as <-.
  rewrite Hc1 in Hc2. injection Hc2 as <-. congruence.
Qed.

Lemma analyze_page_image_success (base64_image : string) (page_num k : nat) (r : pyval) :
  api_success k (PageRequest page_num base64_image) r →
  analyze_page_image base64_image page_num k =
    (Ret r, [Post (PageRequest page_num base64_image)]).
Proof.
  intros (resp & content & Hpost & Hstatus & Hparsed & Hloads).
  unfold analyze_page_image. run. rewrite Hpost, Hstatus. cbn [Z.eqb Pos.eqb].
  unfold parsed_content in Hparsed.
  destruct (json resp) as [result|]; [|done]. cbn [mbind outcome_bind] in Hparsed.
  destruct (message_content result) as [c|]; [|done]. cbn [mbind outcome_bind] in Hparsed.
  rewrite Hparsed. by rewrite Hloads.
Qed.

(** The steps of the loop on a page that renders. *)
Lemma analyze_page_rendered (doc : list page) (all_styles : list pyval)
    (page_num k : nat) (img_data : string) :
  doc !! page_num = Some (Ret img_data) →
  ∃ style pevs,
    analyze_page_image (b64encode img_data) (page_num + 1) k = (Ret style, pevs) ∧
    count_posts pevs = 1%nat ∧
    count_pixmaps pevs = 0%nat ∧
    analyze_page doc all_styles page_num k =
      (Ret (if truthy style then all_styles ++ [style] else all_styles),
       [Ui Write (PageAnalysing (page_num + 1)); Pixmap page_num;
        Ui Write (PageImageSize (page_num + 1) (String.length img_data))]
       ++ pevs
       ++ [if truthy style then Ui Success (PageDone (page_num + 1))
           else Ui Warning (PageFailed (page_num + 1))]).
Proof.
  intros Hdoc.
  destruct (analyze_page_image_total (b64encode img_data) (page_num + 1) k)
    as (style & pevs & Himg & Hshape).
  exists style, pevs. split; [done|].
  split; [by destruct Hshape as [[_ ->]|[_ [m ->]]]|].
  split; [by destruct Hshape as [[_ ->]|[_ [m ->]]]|].
  unfold analyze_page. run. unfold page in *. rewrite Hdoc. cbn [from_option].
  quiet. rewrite Himg. by destruct (truthy style).
Qed.

Lemma analyze_page_unrendered (doc : list page) (all_styles : list pyval)
    (page_num k : nat) (e : exn) :
  doc !! page_num = Some (Raise e) →
  analyze_page doc all_styles page_num k =
    (Raise e, [Ui Write (PageAnalysing (page_num + 1)); Pixmap page_num]).
Proof. intros Hdoc. unfold analyze_page. run. unfold page in *. by rewrite Hdoc. Qed.

Lemma for_each_app {A B : Type} (f : A → B → M A) (l1 l2 : list B) (acc : A) (k : nat) :
  for_each f (l1 ++ l2) acc k =
    match for_each f l1 acc k with
    | (Ret acc1, evs1) =>
        let '(r, evs2) := for_each f l2 acc1 (k + count_posts evs1)%nat in
        (r, evs1 ++ evs2)
    | (Raise e, evs1) => (Raise e, evs1)
    end.
Proof.
  revert acc k. induction l1 as [|b l1 IH]; intros acc k.
  - cbn [app for_each]. unfold mret, M_ret. quiet. by destruct (for_each f l2 acc k).
  - cbn [app for_each]. unfold mbind, M_bind.
    destruct (f acc b k) as [[acc'|e] evs0]; [|done].
    rewrite IH. destruct (for_each f l1 acc' _) as [[acc1|e] evs1]; [|done].
    rewrite count_posts_app, Nat.add_assoc.
    destruct (for_each f l2 acc1 _) as [r evs2]. by rewrite app_assoc.
Qed.

(** The loop on pages that all render: it does not raise and posts one
    request a page. *)
Lemma analyze_loop_rendered (doc : list page) (l : list nat) :
  (∀ j, j ∈ l → ∃ img_data, doc !! j = Some (Ret img_data)) →
  ∀ all_styles k,
    ∃ all_styles' evs,
      for_each (analyze_page doc) l all_styles k = (Ret all_styles', evs) ∧
      count_posts evs = length l ∧
      count_pixmaps evs = length l.
Proof.
  induction l as [|j l IH]; intros Hdoc all_styles k.
  - by exists all_styles, [].
  - destruct (Hdoc j) as [img_data Hj]; [by left|].
    destruct (analyze_page_rendered doc all_styles j k img_data Hj)
      as (style & pevs & _ & Hone & Hzero & Hstep).
    cbn [for_each]. unfold mbind, M_bind. rewrite Hstep.
    edestruct IH as (all' & evs & -> & Hcount & Hpix); [intros; apply Hdoc; by right|].
    do 2 eexists. split; [done|].
    rewrite !count_posts_app, !count_pixmaps_app, Hcount, Hpix, Hone, Hzero.
    by destruct (truthy style).
Qed.

(** The loop collects the styles of the pages. *)
Lemma analyze_loop_styles (doc : list page) (l : list nat) :
  ∀ k styles all_styles,
    page_styles doc l k styles →
    ∃ evs,
      for_each (analyze_page doc) l all_styles k = (Ret (all_styles ++ styles), evs) ∧
      count_posts evs = length l.
Proof.
  induction l as [|j l IH]; intros k styles all_styles Hstyles.
  - cbn [page_styles] in Hstyles. subst styles. exists []. by rewrite app_nil_r.
  - cbn [page_styles] in Hstyles. destruct Hstyles as (img_data & Hj & Hcase).
    destruct (analyze_page_rendered doc all_styles j k img_data Hj)
      as (style & pevs & Himg & Hone & _ & Hstep).
    cbn [for_each]. unfold mbind, M_bind. rewrite Hstep.
    assert (Hk : (k + count_posts
              ([Ui Write (PageAnalysing (j + 1)); Pixmap j;
                Ui Write (PageImageSize (j + 1) (String.length img_data))] ++ pevs
               ++ [if truthy style then Ui Success (PageDone (j + 1))
                   else Ui Warning (PageFailed (j + 1))]) = k + 1)%nat).
    { rewrite !count_posts_app, Hone. by destruct (truthy style). }
    rewrite Hk.
    destruct Hcase as [(style' & styles' & Hsucc & Htruthy & -> & Hrest)|[Hfail Hrest]].
    + rewrite (analyze_page_image_success _ _ _ _ Hsucc) in Himg.
      injection Himg as <- <-. rewrite Htruthy.
      destruct (IH _ _ (all_styles ++ [style']) Hrest) as (evs & -> & Hcount).
      eexists. split; [by rewrite <- app_assoc|].
      rewrite !count_posts_app, Hcount. done.
    + assert (Hs : truthy style = false).
      { destruct (analyze_page_image_total (b64encode img_data) (j + 1) k)
          as (r & evs' & Himg' & Hshape).
        rewrite Himg in Himg'. injection Himg' as <- <-.
        destruct Hshape as [[Hsucc _]|[-> _]]; [by apply Hfail|done]. }
      rewrite Hs. destruct (IH _ _ all_styles Hrest) as (evs & -> & Hcount).
      eexists. split; [done|]. rewrite !count_posts_app, Hcount, Hone. done.
Qed.

(** Pages that render have their styles. *)
Lemma page_styles_total (doc : list page) (l : list nat) :
  (∀ j, j ∈ l → ∃ img_data, doc !! j = Some (Ret img_data)) →
  ∀ k, ∃ all_styles, page_styles doc l k all_styles.
Proof.
  induction l as [|j l IH]; intros Hdoc k; [by exists []|].
  destruct (Hdoc j) as [img_data Hj]; [by left|].
  destruct (IH (λ i Hi, Hdoc i (list_elem_of_further _ _ _ Hi)) (k + 1)%nat)
    as [styles Hstyles].
  destruct (analyze_page_image_total (b64encode img_data) (j + 1) k)
    as (r & evs & Himg & [[Hsucc ->]|[-> [m ->]]]).
  - destruct (truthy r) eqn:Hr.
    + exists (r :: styles), img_data. split; [done|]. left. by exists r, styles.
    + exists styles, img_data. split; [done|]. right. split; [|done].
      intros style Hstyle. by rewrite (api_success_unique _ _ _ _ Hstyle Hsucc).
  - exists styles, img_data. split; [done|]. right. split; [|done].
    intros style Hstyle.
    by rewrite (analyze_page_image_success _ _ _ _ Hstyle) in Himg.
Qed.

Lemma analyze_pdf_styles (doc : list page) (k : nat) (all_styles : list pyval) :
  page_styles doc (seq 0 (Nat.min 10 (length doc))) k all_styles →
  ∃ evs, analyze_pdf_with_gpt4v (Ret doc) k = (Ret (merged_or_none all_styles), evs).
Proof.
  intros Hstyles. rewrite analyze_pdf_unfold. unfold analyze_pages.
  destruct (analyze_loop_styles _ _ _ _ [] Hstyles) as (evs & -> & _).
  cbn [app]. unfold merged_or_none.
  destruct all_styles as [|s rest]; [by eexists|].
  case_bool_decide; [done|].
  destruct (MergeStyles.merge_styles (s :: rest)); by eexists.
Qed.

Lemma analyze_pdf_unrendered (doc : list page) (i k : nat) (e : exn) :
  (i < 10)%nat →
  doc !! i = Some (Raise e) →
  (∀ j, (j < i)%nat → ∃ img_data, doc !! j = Some (Ret img_data)) →
  ∃ evs,
    analyze_pdf_with_gpt4v (Ret doc) k =
      (Ret PNone, evs ++ [Pixmap i] ++ failure_report e) ∧
    count_posts evs = i ∧
    count_pixmaps evs = i.
Proof.
  intros Hi Hdoc Hbefore.
  assert (Hlen : (i < length doc)%nat) by (by eapply lookup_lt_Some).
  rewrite analyze_pdf_unfold. unfold analyze_pages.
  replace (Nat.min 10 (length doc)) with (i + S (Nat.min 10 (length doc) - S i))%nat by lia.
  rewrite seq_app. cbn [seq]. rewrite for_each_app.
  destruct (analyze_loop_rendered doc (seq 0 i)) with (all_styles := @nil pyval) (k := k)
    as (acc & evs & -> & Hposts & Hpix).
  { intros j Hj. apply Hbefore. apply elem_of_seq in Hj. lia. }
  rewrite length_seq in Hposts, Hpix.
  cbn [for_each]. unfold mbind, M_bind.
  rewrite (analyze_page_unrendered doc acc i _ e Hdoc).
  exists (Ui Info (PdfPages (length doc)) :: evs ++ [Ui Write (PageAnalysing (i + 1))]).
  split; [|split].
  - f_equal. cbn [app]. f_equal. by rewrite <- !app_assoc.
  - change (count_posts (?x :: ?l)) with (count_posts l) at 1.
    rewrite count_posts_app, Hposts. change (count_posts [_]) with 0%nat. lia.
  - change (count_pixmaps (?x :: ?l)) with (count_pixmaps l) at 1.
    rewrite count_pixmaps_app, Hpix. change (count_pixmaps [_]) with 0%nat. lia.
Qed.

Lemma analyze_single_image_cases (image_data : image_source) (k : nat) :
  match read_image image_data with
  | Raise e => analyze_ppt_style_single_image image_data k = (Raise e, [])
  | Ret raw =>
      ∃ r evs,
        analyze_ppt_style_single_image image_data k = (Ret r, evs) ∧
        ((api_success k (ImageRequest (b64encode raw)) r ∧
          evs = [Post (ImageRequest (b64encode raw))]) ∨
         (r = PNone ∧
          ∃ m, evs = [Post (ImageRequest (b64encode raw)); Ui Error m]))
  end.
Proof.
  unfold analyze_ppt_style_single_image. run.
  destruct (read_image image_data) as [raw|e]; [|done].
  quiet.
  destruct (requests_post k _) as [resp|e] eqn:Hpost; [|by eauto 10].
  destruct (Z.eqb_spec (status_code resp) 200) as [Hs|Hs]; [|by eauto 10].
  destruct (json resp) as [result|e] eqn:Hjson; [|by eauto 10].
  destruct (message_content result) as [content|e] eqn:Hcontent; [|by eauto 10].
  destruct (strip_fences content) as [s|e] eqn:Hstrip; [|by eauto 10].
  destruct (json_loads s) as [style_data|] eqn:Hloads; [|by eauto 10].
  do 2 eexists. split; [done|]. left. split; [|done].
  exists resp, s. unfold parsed_content. rewrite Hjson. cbn [mbind outcome_bind].
  rewrite Hcontent. cbn [mbind outcome_bind]. by rewrite Hstrip.
Qed.

Lemma generate_svg_cases (style_data content_data : pyval) (k : nat) :
  match create_svg_prompt style_data content_data with
  | Raise e => generate_svg style_data content_data k = (Raise e, [])
  | Ret prompt =>
      (∃ m, generate_svg style_data content_data k =
              (Ret (PNone, PNone), [Post (SvgRequest prompt); Ui Error m])) ∨
      (∃ reply,
         svg_reply k prompt reply ∧
         PyStr.find reply "<svg" ≠ (-1)%Z ∧
         generate_svg style_data content_data k =
           (Ret (PStr (PyStr.slice reply (PyStr.find reply "<svg")
                         (PyStr.find reply "</svg>" + 6)), PStr prompt),
            [Post (SvgRequest prompt)]))
  end.
Proof.
  destruct (create_svg_prompt style_data content_data) as [prompt|e] eqn:Hprompt.
  2:{ unfold generate_svg. run. by rewrite Hprompt. }
  unfold generate_svg. run. rewrite Hprompt. quiet.
  destruct (requests_post k _) as [resp|e] eqn:Hpost; [|by eauto 10].
  destruct (Z.eqb_spec (status_code resp) 200) as [Hs|Hs]; [|by eauto 10].
  destruct (json resp) as [result|e] eqn:Hjson; [|by eauto 10].
  destruct (message_content result) as [content|e] eqn:Hcontent; [|by eauto 10].
  destruct content as [| | | |reply| |]; try (by eauto 10).
  cbn [as_str]. cbn beta iota.
  destruct (Z.eqb_spec (PyStr.find reply "<svg") (-1)) as [Hopen|Hopen];
    [by eauto 10|].
  right. exists reply. split; [by exists resp, result|]. split; [done|].
  destruct (Z.eqb_spec (PyStr.find reply "</svg>" + 6) (-1)) as [Hclose|Hclose]; [|done].
  exfalso. unfold PyStr.find in Hclose.
  destruct (occurrence_cases "</svg>" reply) as [Hno|[n Hn]].
  - rewrite (find_from_none _ _ _ Hno) in Hclose. lia.
  - rewrite (find_from_first _ _ _ _ Hn) in Hclose. lia.
Qed.

(** C6, as amended. In the four operations that call the API every failure
    from the request on (an exception of [requests.post], a reply that is
    not the expected JSON, a JSON decode failure) is caught: the operation
    returns the parsed data (for [generate_svg] the extracted SVG and the
    prompt) with nothing reported, or [None] with one report. An exception
    raised before the [try] block, by [create_svg_prompt] in [generate_svg]
    or by reading the image in [analyze_ppt_style_single_image], propagates
    before any request. [analyze_pdf_with_gpt4v] never raises: it returns
    [None] when the upload or one of the first ten pages cannot be read, and
    otherwise the merge of the truthy styles of the pages, [None] when there
    is none or the merge raises. *)
Theorem api_failures_are_caught (k : nat) :
  (∀ base64_image page_num,
     ∃ r evs,
       analyze_page_image base64_image page_num k = (Ret r, evs) ∧
       ((api_success k (PageRequest page_num base64_image) r ∧
         evs = [Post (PageRequest page_num base64_image)]) ∨
        (r = PNone ∧
         ∃ m, evs = [Post (PageRequest page_num base64_image); Ui Warning m]))) ∧
  (∀ user_input,
     ∃ r evs,
       process_user_request user_input k = (Ret r, evs) ∧
       ((api_success k (ContentRequest user_input) r ∧
         evs = [Post (ContentRequest user_input)]) ∨
        (r = PNone ∧ ∃ m, evs = [Post (ContentRequest user_input); Ui Error m]))) ∧
  (∀ image_data,
     match read_image image_data with
     | Raise e => analyze_ppt_style_single_image image_data k = (Raise e, [])
     | Ret raw =>
         ∃ r evs,
           analyze_ppt_style_single_image image_data k = (Ret r, evs) ∧
           ((api_success k (ImageRequest (b64encode raw)) r ∧
             evs = [Post (ImageRequest (b64encode raw))]) ∨
            (r = PNone ∧
             ∃ m, evs = [Post (ImageRequest (b64encode raw)); Ui Error m]))
     end) ∧
  (∀ style_data content_data,
     match create_svg_prompt style_data content_data with
     | Raise e => generate_svg style_data content_data k = (Raise e, [])
     | Ret prompt =>
         (∃ m, generate_svg style_data content_data k =
                 (Ret (PNone, PNone), [Post (SvgRequest prompt); Ui Error m])) ∨
         (∃ reply,
            svg_reply k prompt reply ∧
            PyStr.find reply "<svg" ≠ (-1)%Z ∧
            generate_svg style_data content_data k =
              (Ret (PStr (PyStr.slice reply (PyStr.find reply "<svg")
                            (PyStr.find reply "</svg>" + 6)), PStr prompt),
               [Post (SvgRequest prompt)]))
     end) ∧
  (∀ pdf_file, ∃ r evs, analyze_pdf_with_gpt4v pdf_file k = (Ret r, evs)) ∧
  (∀ e, analyze_pdf_with_gpt4v (Raise e) k = (Ret PNone, failure_report e)) ∧
  (∀ doc i e,
     (i < 10)%nat →
     doc !! i = Some (Raise e) →
     (∀ j, (j < i)%nat → ∃ img_data, doc !! j = Some (Ret img_data)) →
     ∃ evs, analyze_pdf_with_gpt4v (Ret doc) k = (Ret PNone, evs)) ∧
  (∀ doc,
     (∀ j, (j < Nat.min 10 (length doc))%nat → ∃ img_data, doc !! j = Some (Ret img_data)) →
     ∃ all_styles, page_styles doc (seq 0 (Nat.min 10 (length doc))) k all_styles) ∧
  (∀ doc all_styles,
     page_styles doc (seq 0 (Nat.min 10 (length doc))) k all_styles →
     ∃ evs,
       analyze_pdf_with_gpt4v (Ret doc) k = (Ret (merged_or_none all_styles), evs)).
Proof.
  repeat split.
  - intros. apply analyze_page_image_total.
  - intros. apply process_user_request_total.
  - intros. apply analyze_single_image_cases.
  - intros. apply generate_svg_cases.
  - intros pdf_file.
    destruct (analyze_pdf_total pdf_file k) as (r & evs & Hrun & _). eauto.
  - intros doc i e Hi Hdoc Hbefore.
    destruct (analyze_pdf_unrendered doc i k e Hi Hdoc Hbefore) as (evs & -> & _). eauto.
  - intros doc Hdoc. apply page_styles_total.
    intros j Hj. apply Hdoc. apply elem_of_seq in Hj. lia.
  - intros. by apply analyze_pdf_styles.
Qed.

End Caught.

(** C6 fails as stated: an exception raised before the [try] block is not
    caught. [generate_svg] raises when [create_svg_prompt] does, and
    [analyze_ppt_style_single_image] when the image cannot be read. And a
    result can be partial: when the request of the second of two pages
    fails, [analyze_pdf_with_gpt4v] reports the page and returns the style
    of the first page alone. *)
Lemma exceptions_before_try_propagate :
  @generate_svg (sample_runtime 200 "")
     (PDict {[ "color_palette" := PNone ]}) sample_content 0
    = (Raise AttributeError, []) ∧
  @analyze_ppt_style_single_image (sample_runtime 200 "")
     (FileLike (Raise OtherError)) 0
    = (Raise OtherError, []) ∧
  @analyze_pdf_with_gpt4v first_only_runtime (Ret [Ret "png1"; Ret "png2"]) 0
    = (Ret sample_style,
       [Ui Info (PdfPages 2);
        Ui Write (PageAnalysing 1); Pixmap 0; Ui Write (PageImageSize 1 4);
        Post (PageRequest 1 "png1"); Ui Success (PageDone 1);
        Ui Write (PageAnalysing 2); Pixmap 1; Ui Write (PageImageSize 2 4);
        Post (PageRequest 2 "png2"); Ui Warning (PageHttpFailure 2 500 "");
        Ui Warning (PageFailed 2); Ui Success (Unified 1)]).
Proof. split; [|split]; reflexivity. Qed.

Lemma api_failures_are_caught_witness :
  ∃ evs,
    @analyze_pdf_with_gpt4v scripted_runtime (Ret [Ret "png1"; Ret "png2"]) 0 =
      (Ret (merged_or_none [sample_style; sample_style]), evs).
Proof.
  destruct (@api_failures_are_caught scripted_runtime 0)
    as (_ & _ & _ & _ & _ & _ & _ & _ & Hpages).
  apply Hpages. cbn [length Nat.min seq page_styles].
  exists "png1". split; [reflexivity|]. left. exists sample_style, [sample_style].
  split; [by do 2 eexists|]. split; [reflexivity|]. split; [reflexivity|].
  exists "png2". split; [reflexivity|]. left. exists sample_style, [].
  split; [by do 2 eexists|]. by repeat split.
Defined.

(** There the two pages have the same style, which the merge returns. *)
Example analyze_pdf_sample :
  merged_or_none [sample_style; sample_style] =
    MergeStyles.merged_style {[ "primary" := PStr "#111111" ]} ∅ ∅ ∅ (PStr "") false.
Proof. by vm_compute. Qed.

(** ** The prompt of the SVG request *)

Section Prompt.
Context `{Runtime}.
Hypothesis py_str_str : ∀ s, py_str (PStr s) = s.

Lemma slot_get (d : gmap string pyval) (key default : string) :
  py_str (from_option id (PStr default) (d !! key)) = slot d key default.
Proof. unfold slot. destruct (d !! key); [done|]. apply py_str_str. Qed.

Lemma nested_get (style : gmap string pyval) (name : string) :
  category_dict_ok style name = true →
  from_option id (PDict ∅) (style !! name) = PDict (nested (PDict style) name).
Proof.
  unfold category_dict_ok, nested.
  by destruct (style !! name) as [[]|].
Qed.

Lemma as_elements_strings (l : list pyval) :
  forallb is_str l = true → as_elements l = Ret (omap str_of l).
Proof.
  induction l as [|v l IH]; [done|]. cbn [forallb]. intros [Hv Hl]%andb_prop.
  destruct v; try discriminate. cbn [as_elements as_element mbind outcome_bind].
  by rewrite (IH Hl).
Qed.

Lemma join_elements_text (content : gmap string pyval) :
  elements_ok content = true →
  join_elements (from_option id (PList []) (content !! "specific_elements"))
    = Ret (elements_text content).
Proof.
  unfold elements_ok, elements_text.
  destruct (content !! "specific_elements") as [v|]; [|done].
  destruct v; try discriminate. intros Hl. cbn [from_option id join_elements].
  by rewrite (as_elements_strings _ Hl).
Qed.

(** C10, as amended. When either argument is falsy [create_svg_prompt]
    returns the fixed fallback prompt. Otherwise, for two dicts in which the
    style categories are dicts where present and [specific_elements] is a list
    of strings where present, it returns the prompt in which every key that is
    missing is replaced by its fixed default. *)
Theorem create_svg_prompt_defaults (style_data content_data : pyval) :
  prompt_inputs_ok style_data content_data = true
  ∨ truthy style_data && truthy content_data = false →
  create_svg_prompt style_data content_data =
    Ret (if truthy style_data && truthy content_data
         then prompt_with_defaults style_data content_data
         else fallback_prompt).
Proof.
  intros Hin. unfold create_svg_prompt.
  destruct (truthy style_data) eqn:Hs; [|done].
  destruct (truthy content_data) eqn:Hc; [|done].
  destruct Hin as [Hok|?]; [|done]. cbn [negb orb andb].
  destruct style_data as [| | | | | |style]; try discriminate.
  destruct content_data as [| | | | | |content]; try discriminate.
  cbn [prompt_inputs_ok MergeStyles.categories forallb] in Hok.
  apply andb_prop in Hok as [Hcat Hel].
  apply andb_prop in Hcat as [Hcp Hcat].
  apply andb_prop in Hcat as [Hty Hcat].
  apply andb_prop in Hcat as [Hlo Hcat].
  apply andb_prop in Hcat as [Hvs _].
  cbn [py_get mbind outcome_bind].
  rewrite !nested_get by done. cbn [py_get mbind outcome_bind].
  rewrite (join_elements_text _ Hel). cbn [mbind outcome_bind].
  unfold prompt_with_defaults. by rewrite !slot_get.
Qed.

End Prompt.

(** ** Instances *)

(** The methods of [str] on small inputs. *)
Example find_sample :
  PyStr.find "abc<svg>x</svg>" "<svg" = 3%Z ∧
  PyStr.find "abc<svg>x</svg>" "</svg>" = 9%Z ∧
  PyStr.find "abc" "<svg" = (-1)%Z.
Proof. by vm_compute. Qed.

Example slice_sample :
  PyStr.slice "abc<svg>x</svg>tail" 3 15 = "<svg>x</svg>" ∧
  PyStr.slice "abcdef" 4 2 = "" ∧
  PyStr.slice "abcdef" (-2) 100 = "ef".
Proof. by vm_compute. Qed.

Example strip_fences_sample :
  strip_fences (PStr ("```json" +:+ nl +:+ "{}" +:+ nl +:+ "``` ")) = Ret "{}" ∧
  strip_fences PNone = Raise AttributeError.
Proof. by vm_compute. Qed.

Lemma merge_styles_first_write_wins_witness :
  ∃ merged : gmap string pyval,
    MergeStyles.merge_styles sample_styles = Ret (PDict merged) ∧
    (∀ category, category ∈ MergeStyles.categories →
       ∃ c : gmap string pyval,
         merged !! category = Some (PDict c) ∧
         ∀ key, c !! key = MergeStyles.first_write category key sample_styles) ∧
    merged !! "brand_description" = Some (MergeStyles.first_brand sample_styles) ∧
    merged !! "has_diagrams" =
      Some (PBool (MergeStyles.diagrams_disjunction sample_styles)).
Proof.
  apply merge_styles_first_write_wins; [simpl; lia|reflexivity].
Defined.

(** On the sample the first style gives [primary], the second gives [accent]
    (the first one has it empty) and the description. *)
Example merge_styles_sample :
  MergeStyles.first_write "color_palette" "primary" sample_styles = Some (PStr "#111111") ∧
  MergeStyles.first_write "color_palette" "accent" sample_styles = Some (PStr "#333333") ∧
  MergeStyles.first_brand sample_styles = PStr "plain" ∧
  MergeStyles.diagrams_disjunction sample_styles = true.
Proof. by vm_compute. Qed.

(** A category that is a non-empty string, not a dict, makes the merge
    raise: [style[category].items()] has no meaning for it. *)
Example merge_styles_untyped_category :
  MergeStyles.merge_styles
    [PDict {[ "color_palette" := PStr "blue" ]}; PDict ∅] = Raise AttributeError.
Proof. reflexivity. Qed.

Lemma merge_styles_has_fields_witness :
  MergeStyles.has_style_fields (MergeStyles.merge_styles sample_styles).
Proof.
  apply merge_styles_has_fields; [simpl; lia|reflexivity].
Defined.

(** C7 fails as stated: the one-element list is returned as it is, here
    without any of the fields. *)
Lemma merge_styles_singleton_lacks_fields :
  ¬ MergeStyles.has_style_fields
      (MergeStyles.merge_styles [PDict {[ "has_diagrams" := PBool true ]}]).
Proof.
  intros (merged & cp & ty & lo & vs & bd & Heq & Hcp & _).
  injection Heq as <-. by rewrite lookup_singleton_ne in Hcp.
Qed.

Lemma non_200_reported_once_witness :
  @analyze_page_image (sample_runtime 500 "") "aW1hZ2U=" 1 0 =
    (Ret PNone,
     [Post (PageRequest 1 "aW1hZ2U="); Ui Warning (PageHttpFailure 1 500 "")]).
Proof.
  apply (@non_200_reported_once (sample_runtime 500 "") 0 (reply 500 (PStr ""))
           (PageRequest 1 "aW1hZ2U=")); [reflexivity|discriminate|reflexivity].
Defined.

(** C10 fails as stated: a [color_palette] that is [null], or a number
    among the [specific_elements], makes [create_svg_prompt] raise. *)
Lemma create_svg_prompt_raises :
  @create_svg_prompt (sample_runtime 200 "")
     (PDict {[ "color_palette" := PNone ]}) sample_content = Raise AttributeError ∧
  @create_svg_prompt (sample_runtime 200 "")
     (PDict {[ "brand_description" := PStr "plain" ]})
     (PDict {[ "specific_elements" := PList [PInt 3] ]}) = Raise TypeError.
Proof. split; reflexivity. Qed.

Lemma create_svg_prompt_defaults_witness :
  @create_svg_prompt (sample_runtime 200 "") sample_style sample_content =
    Ret (if truthy sample_style && truthy sample_content
         then @prompt_with_defaults (sample_runtime 200 "") sample_style sample_content
         else fallback_prompt).
Proof.
  apply (@create_svg_prompt_defaults (sample_runtime 200 ""));
    [intros s; reflexivity|left; reflexivity].
Defined.

(** On that input the keys that are present are used and the others get
    their defaults. *)
Example prompt_with_defaults_sample :
  @prompt_with_defaults (sample_runtime 200 "") sample_style sample_content =
    sample_prompt.
Proof. reflexivity. Qed.

(** * Further properties *)

(** ** Errors and monotonicity of the merge *)

Section MergeErrors.
Import MergeStyles.

Lemma merge_category_raises (category : string) (styles_list : list pyval) :
  forallb (category_ok_in category) styles_list = false →
  ∀ merged, merge_category category styles_list merged = Raise AttributeError.
Proof.
  induction styles_list as [|style rest IH]; [done|].
  cbn [forallb]. intros Hbad merged.
  destruct style as [| | | | | |d]; try done.
  cbn [merge_category py_get mbind outcome_bind category_ok_in] in *.
  destruct (d !! category) as [v|] eqn:Hd; cbn [from_option id] in *.
  - destruct (truthy v) eqn:Hv.
    + cbn [py_getitem]. rewrite Hd. cbn [mbind outcome_bind].
      destruct v; try done; cbn [py_items mbind outcome_bind category_ok andb] in *;
        try (rewrite Hv in Hbad; done). by apply IH.
    + apply IH. destruct v; cbn [category_ok] in Hbad; try (rewrite Hv in Hbad; done).
      done.
  - by apply IH.
Qed.

Lemma style_ok_categories (style : pyval) :
  style_ok style =
    category_ok_in "color_palette" style && (category_ok_in "typography" style
    && (category_ok_in "layout" style && (category_ok_in "visual_style" style && true))).
Proof. by destruct style. Qed.

Lemma forallb_style_ok (styles_list : list pyval) :
  forallb style_ok styles_list =
    forallb (category_ok_in "color_palette") styles_list
    && (forallb (category_ok_in "typography") styles_list
    && (forallb (category_ok_in "layout") styles_list
    && forallb (category_ok_in "visual_style") styles_list)).
Proof.
  induction styles_list as [|style rest IH]; [done|].
  cbn [forallb]. rewrite IH, style_ok_categories.
  repeat (destruct (category_ok_in _ style); cbn [andb]; try done);
  repeat (destruct (forallb _ rest); cbn [andb]; try done).
Qed.

Lemma any_has_diagrams_outcome (styles_list : list pyval) :
  (∃ b, any_has_diagrams styles_list = Ret b)
  ∨ any_has_diagrams styles_list = Raise AttributeError.
Proof.
  induction styles_list as [|style rest IH]; [left; by eexists|].
  destruct style; try (by right).
  cbn [any_has_diagrams py_get mbind outcome_bind].
  destruct (truthy _); [left; by eexists|done].
Qed.

Lemma merge_brand_outcome (styles_list : list pyval) (current : pyval) :
  (∃ b, merge_brand styles_list current = Ret b)
  ∨ merge_brand styles_list current = Raise AttributeError.
Proof.
  induction styles_list as [|style rest IH]; [left; by eexists|].
  destruct style as [| | | | | |d]; try (by right).
  cbn [merge_brand py_get mbind outcome_bind].
  destruct (d !! "brand_description") as [v|] eqn:Hd; cbn [from_option id].
  - destruct (truthy v && negb (truthy current)); [|done].
    cbn [py_getitem]. rewrite Hd. left. by eexists.
  - cbn [truthy andb]. done.
Qed.

Lemma merge_category_outcome (category : string) (styles_list : list pyval)
    (merged : gmap string pyval) :
  (∃ m, merge_category category styles_list merged = Ret m)
  ∨ merge_category category styles_list merged = Raise AttributeError.
Proof.
  destruct (forallb (category_ok_in category) styles_list) eqn:Hok.
  - left. revert merged. induction styles_list as [|style rest IH]; intros merged.
    + by eexists.
    + cbn [forallb] in Hok. apply andb_prop in Hok as [Hs Hrest].
      destruct style as [| | | | | |d]; try done.
      cbn [merge_category py_get mbind outcome_bind category_ok_in] in *.
      destruct (d !! category) as [v|] eqn:Hd; cbn [from_option id] in *.
      * destruct (truthy v) eqn:Hv; [|by apply IH].
        cbn [py_getitem]. rewrite Hd. cbn [mbind outcome_bind].
        destruct v; cbn [category_ok] in Hs; try (rewrite Hv in Hs; done).
        cbn [py_items mbind outcome_bind]. by apply IH.
      * by apply IH.
  - right. by apply merge_category_raises.
Qed.

(** On two styles or more the merge returns only for page styles, and
    otherwise raises [AttributeError]. *)
Lemma merge_styles_outcome (styles_list : list pyval) :
  (2 ≤ length styles_list)%nat →
  if forallb style_ok styles_list
  then ∃ r, merge_styles styles_list = Ret r
  else merge_styles styles_list = Raise AttributeError.
Proof.
  intros Hlen. destruct (forallb style_ok styles_list) eqn:Hok.
  { destruct (merge_styles_spec styles_list Hlen Hok) as (cp & ty & lo & vs & Hm & _).
    eauto. }
  destruct styles_list as [|s1 [|s2 rest]]; [simpl in Hlen; lia..|].
  set (styles := s1 :: s2 :: rest) in *.
  change (merge_styles styles) with
    (has_diagrams ← any_has_diagrams styles;
     color_palette ← merge_category "color_palette" styles ∅;
     typography ← merge_category "typography" styles ∅;
     layout ← merge_category "layout" styles ∅;
     visual_style ← merge_category "visual_style" styles ∅;
     brand_description ← merge_brand styles (PStr "");
     Ret (merged_style color_palette typography layout visual_style
            brand_description has_diagrams)).
  rewrite forallb_style_ok in Hok.
  destruct (any_has_diagrams_outcome styles) as [[b ->]| ->]; [|done].
  cbn [mbind outcome_bind].
  destruct (forallb (category_ok_in "color_palette") styles) eqn:H1.
  2:{ by rewrite (merge_category_raises "color_palette"). }
  destruct (merge_category_outcome "color_palette" styles ∅) as [[cp ->]| ->]; [|done].
  cbn [mbind outcome_bind].
  destruct (forallb (category_ok_in "typography") styles) eqn:H2.
  2:{ by rewrite (merge_category_raises "typography"). }
  destruct (merge_category_outcome "typography" styles ∅) as [[ty ->]| ->]; [|done].
  cbn [mbind outcome_bind].
  destruct (forallb (category_ok_in "layout") styles) eqn:H3.
  2:{ by rewrite (merge_category_raises "layout"). }
  destruct (merge_category_outcome "layout" styles ∅) as [[lo ->]| ->]; [|done].
  cbn [mbind outcome_bind].
  destruct (forallb (category_ok_in "visual_style") styles) eqn:H4; [done|].
  by rewrite (merge_category_raises "visual_style").
Qed.




(** X1. On two styles or more [merge_styles] returns exactly when every style
    is a dict whose category fields are missing, falsy or dicts; otherwise
    it raises [AttributeError], and no other exception. *)
Theorem merge_styles_raises_on_untyped (styles_list : list pyval) :
  (2 ≤ length styles_list)%nat →
  (forallb style_ok styles_list = true ↔ ∃ r, merge_styles styles_list = Ret r) ∧
  (forallb style_ok styles_list = false →
     merge_styles styles_list = Raise AttributeError).
Proof.
  intros Hlen. pose proof (merge_styles_outcome styles_list Hlen) as Hout.
  destruct (forallb style_ok styles_list); split; try done.
  - split; [done|]. intros [r Hr]. congruence.
Qed.


End MergeErrors.

(** ** The removal of the Markdown fences *)

Section FenceFacts.
Import PyStr.

Lemma str_app_assoc (a b c : string) : (a +:+ b) +:+ c = a +:+ b +:+ c.
Proof.
  induction a as [|x a IH]; [done|].
  change (String x ((a +:+ b) +:+ c) = String x (a +:+ b +:+ c)). by rewrite IH.
Qed.

Lemma str_app_empty_r (a : string) : a +:+ EmptyString = a.
Proof.
  induction a as [|x a IH]; [done|].
  change (String x (a +:+ EmptyString) = String x a). by rewrite IH.
Qed.

Lemma occurs_at_cons (sub : string) (c : ascii) (s : string) :
  (∀ k, ¬ occurs_at sub (String c s) k) ↔
  String.prefix sub (String c s) = false ∧ ∀ k, ¬ occurs_at sub s k.
Proof.
  split.
  - intros Hno. split.
    + destruct (String.prefix sub (String c s)) eqn:Hp; [|done].
      apply occurs_at_0 in Hp. by destruct (Hno 0%nat).
    + intros k Hk. apply (Hno (S k)). by apply occurs_at_S.
  - intros [Hp Hno] [|k] Hk.
    + apply occurs_at_0 in Hk. congruence.
    + apply occurs_at_S in Hk. by apply (Hno k).
Qed.

Lemma occurs_at_nil (sub : string) :
  sub ≠ EmptyString → ∀ k, ¬ occurs_at sub EmptyString k.
Proof.
  intros Hsub k (before & after & Heq & _).
  destruct before; [|done]. destruct sub; done.
Qed.

Lemma prefix_cons (a : ascii) (sub : string) (b : ascii) (s : string) :
  String.prefix (String a sub) (String b s) =
    if Ascii.eqb a b then String.prefix sub s else false.
Proof.
  cbn [String.prefix]. destruct (ascii_dec a b) as [->|Hne].
  - by rewrite Ascii.eqb_refl.
  - apply Ascii.eqb_neq in Hne. by rewrite Hne.
Qed.

Lemma prefix_nil_r (a : ascii) (sub : string) :
  String.prefix (String a sub) EmptyString = false.
Proof. done. Qed.

Lemma prefix_nil_l (s : string) : String.prefix EmptyString s = true.
Proof. by destruct s. Qed.

(** Removing the fences leaves none: what is left of a run of backticks is
    shorter than a fence and the next character is not a backtick. *)
Lemma replace_fence_inv (s : string) :
  ∀ skip,
    (∀ k, ¬ occurs_at fence (replace_from fence "" skip s) k) ∧
    (skip = 0%nat →
       (String.prefix "`" s = false →
          String.prefix "`" (replace_from fence "" 0 s) = false) ∧
       (String.prefix "``" s = false →
          String.prefix "``" (replace_from fence "" 0 s) = false)).
Proof.
  induction s as [|c s IH]; intros skip.
  - split; [by apply occurs_at_nil|done].
  - destruct skip as [|skip].
    + cbn [replace_from].
      destruct (String.prefix fence (String c s)) eqn:Hp.
      * change ("" +:+ ?x) with x. split; [apply (IH _)|]. intros _.
        unfold fence in Hp. rewrite !prefix_cons in *.
        destruct (Ascii.eqb "`" c); [|done].
        rewrite prefix_nil_l. split; [done|]. intros H2.
        destruct s as [|c1 s]; [done|]. rewrite !prefix_cons in *.
        destruct (Ascii.eqb "`" c1); [|done].
        rewrite prefix_nil_l in H2. done.
      * destruct (IH 0%nat) as [Hno [H1 H2]]; [done|].
        assert (Hhead : String.prefix fence (String c (replace_from fence "" 0 s)) = false).
        { unfold fence in *. rewrite !prefix_cons in *.
          destruct (Ascii.eqb "`" c); [|done]. by apply H2. }
        split; [by apply occurs_at_cons|]. intros _. rewrite !prefix_cons.
        destruct (Ascii.eqb "`" c); [|done]. rewrite !prefix_nil_l.
        split; [done|]. apply H1.
    + cbn [replace_from]. split; [apply (IH _)|done].
Qed.

Lemma replace_fence_none (s : string) :
  ∀ k, ¬ occurs_at fence (replace s fence "") k.
Proof. apply (replace_fence_inv s 0). Qed.

Lemma lstrip_suffix (s : string) : ∃ pre, s = pre +:+ lstrip s.
Proof.
  induction s as [|c s [pre IH]]; [by exists EmptyString|]. cbn [lstrip].
  destruct (is_space c); [|by exists EmptyString].
  exists (String c pre). change (String c s = String c (pre +:+ lstrip s)). by rewrite <- IH.
Qed.

Lemma rstrip_prefix (s : string) : ∃ post, s = rstrip s +:+ post.
Proof.
  induction s as [|c s [post IH]]; [by exists EmptyString|]. cbn [rstrip].
  destruct (rstrip s) as [|c' r] eqn:Hr.
  - destruct (is_space c); [by exists (String c s)|].
    exists s. done.
  - exists post. change (String c s = String c (String c' r +:+ post)). by rewrite <- IH.
Qed.

Lemma occurs_at_inside (sub pre s post : string) (k : nat) :
  occurs_at sub s k → occurs_at sub (pre +:+ s +:+ post) (String.length pre + k).
Proof.
  intros (before & after & -> & <-). exists (pre +:+ before), (after +:+ post).
  split; [by rewrite !str_app_assoc|]. by rewrite app_length.
Qed.

Lemma strip_part (s : string) : ∃ pre post, s = pre +:+ strip s +:+ post.
Proof.
  unfold strip. destruct (lstrip_suffix s) as [pre Hpre].
  destruct (rstrip_prefix (lstrip s)) as [post Hpost].
  exists pre, post. by rewrite <- Hpost.
Qed.

Lemma rstrip_app_space (s : string) (c : ascii) :
  is_space c = true → rstrip (s +:+ String c EmptyString) = rstrip s.
Proof.
  intros Hc. induction s as [|a s IH].
  - change (rstrip (String c EmptyString) = EmptyString). cbn [rstrip]. by rewrite Hc.
  - change (rstrip (String a (s +:+ String c EmptyString)) = rstrip (String a s)).
    cbn [rstrip]. by rewrite IH.
Qed.

Lemma strip_app_space (s : string) (c : ascii) :
  is_space c = true → strip (s +:+ String c EmptyString) = strip s.
Proof.
  intros Hc. unfold strip. induction s as [|a s IH].
  - change (rstrip (lstrip (String c EmptyString)) = EmptyString).
    cbn [lstrip]. by rewrite Hc.
  - change (rstrip (lstrip (String a (s +:+ String c EmptyString)))
            = rstrip (lstrip (String a s))).
    cbn [lstrip]. destruct (is_space a); [done|].
    change (rstrip (String a s +:+ String c EmptyString) = rstrip (String a s)).
    by apply rstrip_app_space.
Qed.

Lemma strip_cons_space (s : string) (c : ascii) :
  is_space c = true → strip (String c s) = strip s.
Proof. intros Hc. unfold strip. cbn [lstrip]. by rewrite Hc. Qed.

(** No occurrence of [old] starts in a part without backtick, when [old]
    starts with one. *)
Lemma replace_no_backtick (old new a b : string) :
  no_backtick a = true →
  replace_from (String "`" old) new 0 (a +:+ b) =
    a +:+ replace_from (String "`" old) new 0 b.
Proof.
  induction a as [|c a IH]; [done|]. cbn [no_backtick]. intros [Hc Ha]%andb_prop.
  change (String c a +:+ b) with (String c (a +:+ b)). cbn [replace_from].
  rewrite prefix_cons. rewrite Ascii.eqb_sym.
  destruct (Ascii.eqb c "`"); [done|].
  rewrite (IH Ha). done.
Qed.

Lemma replace_skip (old new t rest : string) :
  replace_from old new (String.length t) (t +:+ rest) = replace_from old new 0 rest.
Proof. induction t as [|c t IH]; [done|]. exact IH. Qed.

Lemma replace_at_occurrence (a : ascii) (old new rest : string) :
  replace_from (String a old) new 0 (String a old +:+ rest) =
    new +:+ replace_from (String a old) new 0 rest.
Proof.
  change (String a old +:+ rest) with (String a (old +:+ rest)). cbn [replace_from].
  assert (String.prefix (String a old) (String a (old +:+ rest)) = true) as ->.
  { apply prefix_app. by exists rest. }
  replace (String.length (String a old) - 1)%nat with (String.length old)
    by (cbn [String.length]; lia).
  by rewrite replace_skip.
Qed.

Lemma replace_plain (old new a : string) :
  no_backtick a = true → replace_from (String "`" old) new 0 a = a.
Proof.
  intros Ha. rewrite <- (str_app_empty_r a) at 1.
  rewrite (replace_no_backtick _ _ _ _ Ha). apply str_app_empty_r.
Qed.

(** The cleaning of a body between fences. *)
Lemma clean_fenced (opening body : string) :
  opening = json_fence ∨ opening = fence →
  no_backtick body = true →
  strip (replace (replace (opening +:+ nl +:+ body +:+ nl +:+ fence) json_fence "")
           fence "") = strip body.
Proof.
  intros Hopen Hbody. unfold replace.
  assert (Hfirst : replace_from json_fence "" 0 (opening +:+ nl +:+ body +:+ nl +:+ fence)
                   = (if String.eqb opening json_fence then EmptyString else fence)
                     +:+ String "010" (body +:+ String "010" fence)).
  { destruct Hopen as [-> | ->].
    - unfold json_fence at 1 2. rewrite replace_at_occurrence.
      change (replace_from "```json" "" 0 (nl +:+ body +:+ nl +:+ fence)) with
        (String "010" (replace_from "```json" "" 0 (body +:+ String "010" fence))).
      rewrite (replace_no_backtick _ _ _ _ Hbody). done.
    - change (replace_from json_fence "" 0 (fence +:+ nl +:+ body +:+ nl +:+ fence)) with
        ("```" +:+ String "010" (replace_from "```json" "" 0 (body +:+ String "010" fence))).
      rewrite (replace_no_backtick _ _ _ _ Hbody). done. }
  rewrite Hfirst.
  assert (Hsecond : ∀ opening',
            opening' = EmptyString ∨ opening' = fence →
            replace_from fence "" 0 (opening' +:+ String "010" (body +:+ String "010" fence))
            = String "010" (body +:+ String "010" EmptyString)).
  { intros o [-> | ->].
    - change (replace_from fence "" 0 ("" +:+ String "010" (body +:+ String "010" fence))) with
        (String "010" (replace_from "```" "" 0 (body +:+ String "010" fence))).
      by rewrite (replace_no_backtick _ _ _ _ Hbody).
    - unfold fence at 1 2. rewrite replace_at_occurrence.
      change ("" +:+ replace_from "```" "" 0 (String "010" (body +:+ String "010" fence))) with
        (String "010" (replace_from "```" "" 0 (body +:+ String "010" fence))).
      by rewrite (replace_no_backtick _ _ _ _ Hbody). }
  rewrite Hsecond by (destruct (String.eqb opening json_fence); auto).
  rewrite strip_cons_space by done. by apply strip_app_space.
Qed.

(** X3. What [strip_fences] returns holds no fence, wherever the fences were in
    the reply and however many backticks stood together. *)
Theorem strip_fences_leaves_no_fence (content : pyval) (s : string) :
  strip_fences content = Ret s → ∀ k, ¬ occurs_at "```" s k.
Proof.
  unfold strip_fences. destruct content as [| | | |s0| |]; try done.
  cbn [as_str mbind outcome_bind]. intros [= <-] k Hk.
  destruct (strip_part (replace (replace s0 "```json" "") "```" "")) as (pre & post & Hpart).
  apply (occurs_at_inside _ pre _ post) in Hk. rewrite <- Hpart in Hk.
  by apply (replace_fence_none (replace s0 "```json" "")) in Hk.
Qed.

(** X4. A body without backticks comes out stripped, whether the reply gives it
    bare, between [```json] and [```], or between [```] and [```]. *)
Theorem strip_fences_unwraps (body : string) :
  no_backtick body = true →
  strip_fences (PStr body) = Ret (strip body) ∧
  ∀ opening,
    opening = "```json" ∨ opening = "```" →
    strip_fences (PStr (opening +:+ nl +:+ body +:+ nl +:+ "```")) = Ret (strip body).
Proof.
  intros Hbody. unfold strip_fences. cbn [as_str mbind outcome_bind]. split.
  - unfold replace. by rewrite !(replace_plain _ _ _ Hbody).
  - intros opening Hopen. f_equal. by apply clean_fenced.
Qed.

End FenceFacts.

(** ** More on the operations that call the API *)

Section MoreEffects.
Context `{Runtime}.

Ltac run := unfold try_except, mbind, M_bind, mret, M_ret, post, ui, emit, lift.

Ltac quiet :=
  change (count_posts []) with 0%nat;
  repeat match goal with
         | |- context [count_posts (?e :: ?l)] =>
             change (count_posts (e :: l)) with 0%nat
         end;
  rewrite ?Nat.add_0_r.

(** X5. [result['choices'][0]['message']['content']] returns exactly on the
    replies of that shape: a dict whose [choices] is a non-empty list, the
    first choice a dict whose [message] is a dict with a [content]. *)
Theorem message_content_shape (result v : pyval) :
  message_content result = Ret v ↔
  ∃ (d c m : gmap string pyval) (others : list pyval),
    result = PDict d ∧
    d !! "choices" = Some (PList (PDict c :: others)) ∧
    c !! "message" = Some (PDict m) ∧
    m !! "content" = Some v.
Proof.
  unfold message_content. split.
  - destruct result as [| | | | | |d]; try done. cbn [py_getitem].
    destruct (d !! "choices") as [choices|] eqn:Hd; [|done]. cbn [mbind outcome_bind].
    destruct choices as [| | | |s|l|]; try done.
    { destruct s; done. }
    destruct l as [|choice others]; [done|]. cbn [py_getitem0 mbind outcome_bind].
    destruct choice as [| | | | | |c]; try done. cbn [py_getitem].
    destruct (c !! "message") as [msg|] eqn:Hc; [|done]. cbn [mbind outcome_bind].
    destruct msg as [| | | | | |m]; try done. cbn [py_getitem].
    destruct (m !! "content") as [w|] eqn:Hm; [|done]. intros [= <-].
    by exists d, c, m, others.
  - intros (d & c & m & others & -> & Hd & Hc & Hm). cbn [py_getitem].
    rewrite Hd. cbn [mbind outcome_bind py_getitem0 py_getitem]. rewrite Hc.
    cbn [mbind outcome_bind py_getitem]. by rewrite Hm.
Qed.



Lemma merged_style_truthy (cp ty lo vs : gmap string pyval) (bd : pyval) (hd : bool) :
  truthy (MergeStyles.merged_style cp ty lo vs bd hd) = true.
Proof.
  unfold MergeStyles.merged_style. cbn [truthy].
  case_bool_decide as Hempty; [|done]. by apply insert_non_empty in Hempty.
Qed.




(** [generate_ppt_slide] by the results of its stages. *)
Lemma generate_ppt_slide_unfold (uploaded_file : outcome (list page))
    (user_request : string) (k : nat) :
  generate_ppt_slide uploaded_file user_request k =
    match analyze_pdf_with_gpt4v uploaded_file k with
    | (Raise e, evs1) => (Raise e, StatusOpen StyleStage :: evs1)
    | (Ret style_data, evs1) =>
        if negb (truthy style_data) then
          (Ret PNone, StatusOpen StyleStage :: evs1 ++ [StatusUpdate StyleStage StateError])
        else
          match process_user_request user_request (k + count_posts evs1) with
          | (Raise e, evs2) =>
              (Raise e,
               StatusOpen StyleStage :: evs1
                 ++ StatusUpdate StyleStage StateComplete :: StatusOpen ContentStage :: evs2)
          | (Ret content_data, evs2) =>
              if negb (truthy content_data) then
                (Ret PNone,
                 StatusOpen StyleStage :: evs1
                   ++ StatusUpdate StyleStage StateComplete :: StatusOpen ContentStage :: evs2
                   ++ [StatusUpdate ContentStage StateError])
              else
                match generate_svg style_data content_data
                        (k + count_posts evs1 + count_posts evs2) with
                | (Raise e, evs3) =>
                    (Raise e,
                     StatusOpen StyleStage :: evs1
                       ++ StatusUpdate StyleStage StateComplete
                       :: StatusOpen ContentStage :: evs2
                       ++ StatusUpdate ContentStage StateComplete
                       :: StatusOpen SvgStage :: evs3)
                | (Ret (svg_content, final_prompt), evs3) =>
                    (if negb (truthy svg_content) then Ret PNone
                     else Ret (slide svg_content style_data content_data final_prompt),
                     StatusOpen StyleStage :: evs1
                       ++ StatusUpdate StyleStage StateComplete
                       :: StatusOpen ContentStage :: evs2
                       ++ StatusUpdate ContentStage StateComplete
                       :: StatusOpen SvgStage :: evs3
                       ++ [StatusUpdate SvgStage
                             (if negb (truthy svg_content) then StateError
                              else StateComplete)])
                end
          end
    end.
Proof.
  unfold generate_ppt_slide. run. quiet.
  destruct (analyze_pdf_with_gpt4v uploaded_file k) as [[style_data|e] evs1]; [|done].
  destruct (truthy style_data); cbn [negb]; [|by rewrite app_nil_r].
  cbv beta. quiet.
  destruct (process_user_request user_request _) as [[content_data|e] evs2]; [|done].
  destruct (truthy content_data); cbn [negb]; [|by rewrite app_nil_r].
  cbv beta. quiet.
  destruct (generate_svg style_data content_data _) as [[[svg_content final_prompt]|e] evs3];
    [|done].
  by destruct (truthy svg_content); cbn [negb]; rewrite app_nil_r.
Qed.






(** X9. An upload that cannot be opened, or that has no page, ends the run in
    the first stage without any request. *)
Theorem generate_ppt_slide_nothing_to_analyze (user_request : string) (k : nat) :
  (∀ e, generate_ppt_slide (Raise e) user_request k =
          (Ret PNone,
           [StatusOpen StyleStage; Ui Error (PdfError e); Ui Error PdfTraceback;
            StatusUpdate StyleStage StateError])) ∧
  generate_ppt_slide (Ret []) user_request k =
    (Ret PNone,
     [StatusOpen StyleStage; Ui Info (PdfPages 0); Ui Error NoStyles;
      StatusUpdate StyleStage StateError]).
Proof. split; [intros e|]; by rewrite generate_ppt_slide_unfold. Qed.

End MoreEffects.

Section DecodeFailures.
Context `{Runtime}.

Ltac run := unfold try_except, mbind, M_bind, mret, M_ret, post, ui, emit, lift.

(** X10. A reply of status 200 whose content [json.loads] rejects. The page
    analysis has a handler of its own for it and shows the first 200
    characters of the content in a warning; the other two operations report
    it as any other exception. None of them asks again. *)
Theorem json_decode_failure_reported (k : nat) (req : request) (resp : response)
    (content : string) :
  requests_post k req = Ret resp →
  status_code resp = 200%Z →
  parsed_content resp = Ret content →
  json_loads content = None →
  (∀ base64_image page_num,
     req = PageRequest page_num base64_image →
     analyze_page_image base64_image page_num k =
       (Ret PNone,
        [Post req; Ui Warning (PageJsonError page_num (PyStr.slice content 0 200))])) ∧
  (∀ image_data raw,
     read_image image_data = Ret raw →
     req = ImageRequest (b64encode raw) →
     analyze_ppt_style_single_image image_data k =
       (Ret PNone, [Post req; Ui Error (StyleException JSONDecodeError)])) ∧
  (∀ user_input,
     req = ContentRequest user_input →
     process_user_request user_input k =
       (Ret PNone, [Post req; Ui Error (ContentException JSONDecodeError)])).
Proof.
  intros Hpost Hstatus Hparsed Hloads. unfold parsed_content in Hparsed.
  destruct (json resp) as [result|] eqn:Hjson; [|done].
  cbn [mbind outcome_bind] in Hparsed.
  destruct (message_content result) as [c|] eqn:Hcontent; [|done].
  cbn [mbind outcome_bind] in Hparsed.
  split; [|split].
  - intros base64_image page_num ->. unfold analyze_page_image. run.
    rewrite Hpost, Hstatus. cbn [Z.eqb Pos.eqb]. rewrite Hjson, Hcontent, Hparsed.
    by rewrite Hloads.
  - intros image_data raw Hread ->. unfold analyze_ppt_style_single_image. run.
    rewrite Hread. cbn [count_posts filter length app Nat.add]. rewrite Nat.add_0_r.
    rewrite Hpost, Hstatus. cbn [Z.eqb Pos.eqb]. rewrite Hjson, Hcontent, Hparsed.
    by rewrite Hloads.
  - intros user_input ->. unfold process_user_request. run.
    rewrite Hpost, Hstatus. cbn [Z.eqb Pos.eqb]. rewrite Hjson, Hcontent, Hparsed.
    by rewrite Hloads.
Qed.

End DecodeFailures.

(** ** From the merge to the prompt, and the SVG stage *)

Section PromptOfMerge.
Context `{Runtime}.
Hypothesis py_str_str : ∀ s, py_str (PStr s) = s.

(** [create_svg_prompt] on two truthy dicts of the expected types. *)
Lemma create_svg_prompt_typed (style content : gmap string pyval) :
  truthy (PDict style) = true →
  truthy (PDict content) = true →
  forallb (category_dict_ok style) MergeStyles.categories = true →
  elements_ok content = true →
  create_svg_prompt (PDict style) (PDict content) =
    Ret (prompt_with_defaults (PDict style) (PDict content)).
Proof.
  intros Hs Hc Hcat Hel. unfold create_svg_prompt. rewrite Hs, Hc. cbn [negb orb].
  cbn [MergeStyles.categories forallb] in Hcat.
  apply andb_prop in Hcat as [Hcp Hcat].
  apply andb_prop in Hcat as [Hty Hcat].
  apply andb_prop in Hcat as [Hlo Hcat].
  apply andb_prop in Hcat as [Hvs _].
  cbn [py_get mbind outcome_bind].
  rewrite !nested_get by done. cbn [py_get mbind outcome_bind].
  rewrite (join_elements_text _ Hel). cbn [mbind outcome_bind].
  unfold prompt_with_defaults. by rewrite !(slot_get py_str_str).
Qed.

Lemma merged_style_categories (cp ty lo vs : gmap string pyval) (bd : pyval) (hd : bool)
    (merged : gmap string pyval) :
  MergeStyles.merged_style cp ty lo vs bd hd = PDict merged →
  forallb (category_dict_ok merged) MergeStyles.categories = true.
Proof.
  intros [= <-]. cbn [MergeStyles.categories forallb]. unfold category_dict_ok.
  assert (Hcp : (<["color_palette" := PDict cp]>
        (<["typography" := PDict ty]>
        (<["layout" := PDict lo]>
        (<["visual_style" := PDict vs]>
        (<["brand_description" := bd]>
        (<["has_diagrams" := PBool hd]> (∅ : gmap string pyval))))))) !! "color_palette"
        = Some (PDict cp)) by done.
  assert (Hty : (<["color_palette" := PDict cp]>
        (<["typography" := PDict ty]>
        (<["layout" := PDict lo]>
        (<["visual_style" := PDict vs]>
        (<["brand_description" := bd]>
        (<["has_diagrams" := PBool hd]> (∅ : gmap string pyval))))))) !! "typography"
        = Some (PDict ty)) by done.
  assert (Hlo : (<["color_palette" := PDict cp]>
        (<["typography" := PDict ty]>
        (<["layout" := PDict lo]>
        (<["visual_style" := PDict vs]>
        (<["brand_description" := bd]>
        (<["has_diagrams" := PBool hd]> (∅ : gmap string pyval))))))) !! "layout"
        = Some (PDict lo)) by done.
  assert (Hvs : (<["color_palette" := PDict cp]>
        (<["typography" := PDict ty]>
        (<["layout" := PDict lo]>
        (<["visual_style" := PDict vs]>
        (<["brand_description" := bd]>
        (<["has_diagrams" := PBool hd]> (∅ : gmap string pyval))))))) !! "visual_style"
        = Some (PDict vs)) by done.
  by rewrite Hcp, Hty, Hlo, Hvs.
Qed.

(** X11. The two halves fit: on the merge of two page styles or more, and a
    content whose [specific_elements] is a list of strings where present,
    [create_svg_prompt] does not raise and returns the prompt with the
    defaults. *)
Theorem create_svg_prompt_of_merged (styles_list : list pyval)
    (content : gmap string pyval) :
  (2 ≤ length styles_list)%nat →
  forallb MergeStyles.style_ok styles_list = true →
  content ≠ ∅ →
  elements_ok content = true →
  ∃ merged,
    MergeStyles.merge_styles styles_list = Ret merged ∧
    create_svg_prompt merged (PDict content) =
      Ret (prompt_with_defaults merged (PDict content)).
Proof.
  intros Hlen Hok Hne Hel.
  destruct (merge_styles_spec styles_list Hlen Hok) as (cp & ty & lo & vs & Hm & _).
  eexists. split; [exact Hm|].
  destruct (MergeStyles.merged_style cp ty lo vs _ _) as [| | | | | |merged] eqn:Hmerged;
    try discriminate.
  apply create_svg_prompt_typed.
  - rewrite <- Hmerged. apply merged_style_truthy.
  - cbn [truthy]. by case_bool_decide.
  - by eapply merged_style_categories.
  - done.
Qed.

End PromptOfMerge.

Section SvgStage.
Context `{Runtime}.

(** X12. A reply in which the markers are found and the slice between them is
    empty ends the run in the SVG stage with [None]: the status turns to
    error and no message tells why. *)
Theorem generate_ppt_slide_empty_svg (uploaded_file : outcome (list page))
    (user_request : string) (k : nat) (style_data content_data : pyval)
    (evs1 evs2 : list event) (prompt reply : string) :
  analyze_pdf_with_gpt4v uploaded_file k = (Ret style_data, evs1) →
  truthy style_data = true →
  process_user_request user_request (k + count_posts evs1) = (Ret content_data, evs2) →
  truthy content_data = true →
  create_svg_prompt style_data content_data = Ret prompt →
  svg_reply (k + count_posts evs1 + count_posts evs2) prompt reply →
  PyStr.find reply "<svg" ≠ (-1)%Z →
  PyStr.slice reply (PyStr.find reply "<svg") (PyStr.find reply "</svg>" + 6) = "" →
  generate_ppt_slide uploaded_file user_request k =
    (Ret PNone,
     StatusOpen StyleStage :: evs1
       ++ StatusUpdate StyleStage StateComplete :: StatusOpen ContentStage :: evs2
       ++ StatusUpdate ContentStage StateComplete :: StatusOpen SvgStage
       :: [Post (SvgRequest prompt); StatusUpdate SvgStage StateError]).
Proof.
  intros Hstyle Hs Hcontent Hc Hprompt Hreply Hopen Hslice.
  rewrite generate_ppt_slide_unfold, Hstyle, Hs. cbn [negb].
  rewrite Hcontent, Hc. cbn [negb].
  rewrite (generate_svg_reply _ _ _ _ _ Hprompt Hreply), Hslice.
  destruct (Z.eqb_spec (PyStr.find reply "<svg") (-1)) as [|_]; [done|].
  destruct (Z.eqb_spec (PyStr.find reply "</svg>" + 6) (-1)) as [Hclose|_]; [|done].
  exfalso. unfold PyStr.find in Hclose.
  destruct (occurrence_cases "</svg>" reply) as [Hno|[n Hn]].
  - rewrite (find_from_none _ _ _ Hno) in Hclose. lia.
  - rewrite (find_from_first _ _ _ _ Hn) in Hclose. lia.
Qed.

End SvgStage.

(** ** Instances of the further properties *)

Lemma merge_styles_raises_on_untyped_witness :
  MergeStyles.merge_styles [PDict {[ "layout" := PInt 3 ]}; PDict ∅]
    = Raise AttributeError.
Proof.
  destruct (merge_styles_raises_on_untyped [PDict {[ "layout" := PInt 3 ]}; PDict ∅])
    as [_ Hraise]; [simpl; lia|].
  apply Hraise. reflexivity.
Defined.


Lemma strip_fences_leaves_no_fence_witness :
  ¬ PyStr.occurs_at "```" "{}" 0.
Proof.
  apply (strip_fences_leaves_no_fence (PStr "`````json`{}") "{}"). reflexivity.
Defined.

Lemma strip_fences_unwraps_witness :
  strip_fences (PStr ("```json" +:+ nl +:+ " {} " +:+ nl +:+ "```")) = Ret "{}".
Proof.
  destruct (strip_fences_unwraps " {} ") as [_ Hfenced]; [reflexivity|].
  apply (Hfenced "```json"). by left.
Defined.


Lemma create_svg_prompt_of_merged_witness :
  ∃ merged,
    MergeStyles.merge_styles sample_styles = Ret merged ∧
    @create_svg_prompt scripted_runtime merged sample_content =
      Ret (@prompt_with_defaults scripted_runtime merged sample_content).
Proof.
  apply (@create_svg_prompt_of_merged scripted_runtime).
  - done.
  - simpl. lia.
  - reflexivity.
  - done.
  - reflexivity.
Defined.

Lemma generate_ppt_slide_empty_svg_witness :
  @generate_ppt_slide (svg_runtime "</svg> <svg>") (Ret [Ret "png1"]) "a network" 0 =
    (Ret PNone,
     [StatusOpen StyleStage; Ui Info (PdfPages 1); Ui Write (PageAnalysing 1); Pixmap 0;
      Ui Write (PageImageSize 1 4); Post (PageRequest 1 "png1"); Ui Success (PageDone 1);
      Ui Success (Unified 1); StatusUpdate StyleStage StateComplete;
      StatusOpen ContentStage; Post (ContentRequest "a network");
      StatusUpdate ContentStage StateComplete;
      StatusOpen SvgStage; Post (SvgRequest sample_prompt);
      StatusUpdate SvgStage StateError]).
Proof.
  apply (@generate_ppt_slide_empty_svg (svg_runtime "</svg> <svg>") (Ret [Ret "png1"])
           "a network" 0 sample_style sample_content
           [Ui Info (PdfPages 1); Ui Write (PageAnalysing 1); Pixmap 0;
            Ui Write (PageImageSize 1 4); Post (PageRequest 1 "png1");
            Ui Success (PageDone 1); Ui Success (Unified 1)]
           [Post (ContentRequest "a network")] sample_prompt "</svg> <svg>").
  - reflexivity.
  - reflexivity.
  - reflexivity.
  - reflexivity.
  - reflexivity.
  - by do 2 eexists.
  - by vm_compute.
  - by vm_compute.
Defined.

Lemma json_decode_failure_reported_witness :
  @analyze_page_image (sample_runtime 200 "not json") "png1" 1 0 =
    (Ret PNone,
     [Post (PageRequest 1 "png1"); Ui Warning (PageJsonError 1 "not json")]) ∧
  @process_user_request (sample_runtime 200 "not json") "a network" 0 =
    (Ret PNone,
     [Post (ContentRequest "a network"); Ui Error (ContentException JSONDecodeError)]).
Proof.
  split.
  - destruct (@json_decode_failure_reported (sample_runtime 200 "not json") 0
                (PageRequest 1 "png1") (reply 200 (PStr "not json")) "not json")
      as [Hpage _]; [reflexivity..|].
    by apply Hpage.
  - destruct (@json_decode_failure_reported (sample_runtime 200 "not json") 0
                (ContentRequest "a network") (reply 200 (PStr "not json")) "not json")
      as (_ & _ & Hcontent); [reflexivity..|].
    by apply Hcontent.
Defined.
